(** * StudyOS: the plan compilation and enforcement engine of [app.py]

    A shallow embedding of the pure core of [src/app.py]: the metadata index
    ([load_metadata]), the content rule transformer ([apply_content_rule],
    [clip_text]), the layout resolver ([find_layout]), the plan enforcer
    ([enforce_plan_rules]), the deck builder ([build_pptx_from_plan]), the
    file name slug ([safe_slug]) and the stub plan ([stub_plan]).

    Python dictionaries are [gmap]s, lists are lists, [None] and absent keys
    are [option]s, and an exception is the [None] of an [option] result. *)

From Stdlib Require Import ZArith Ascii String List Lia.
From Equations Require Import Equations.
From stdpp Require Import base option list gmap strings pretty.

#[local] Set Warnings "-clear-no-such-hyp".

Open Scope Z_scope.

(** ** Python [str] methods used by the program

    Texts are Rocq strings. The case maps and the white space test are
    Python's on the ASCII range, where every marker of the program lives; a
    character above 127 is left as it is. *)
Module PyStr.

Definition code (c : ascii) : N := N_of_ascii c.

Definition is_upper (c : ascii) : bool := ((65 <=? code c) && (code c <=? 90))%N.
Definition is_lower (c : ascii) : bool := ((97 <=? code c) && (code c <=? 122))%N.
Definition is_cased (c : ascii) : bool := is_upper c || is_lower c.

(** [str.isspace] on one character: TAB..CR, FS..US and the blank. *)
Definition is_space (c : ascii) : bool :=
  (((9 <=? code c) && (code c <=? 13)) || ((28 <=? code c) && (code c <=? 32)))%N.

Definition lower_char (c : ascii) : ascii :=
  if is_upper c then ascii_of_N (code c + 32) else c.
Definition upper_char (c : ascii) : ascii :=
  if is_lower c then ascii_of_N (code c - 32) else c.

Fixpoint map_chars (f : ascii → ascii) (s : string) : string :=
  match s with
  | EmptyString => EmptyString
  | String c r => String (f c) (map_chars f r)
  end.

(** [s.lower()] and [s.upper()] *)
Definition lower : string → string := map_chars lower_char.
Definition upper : string → string := map_chars upper_char.

(** [s.title()]: a cased character is upper-cased when the character
    before it is not cased, lower-cased otherwise. *)
Fixpoint title_go (previous_is_cased : bool) (s : string) : string :=
  match s with
  | EmptyString => EmptyString
  | String c r =>
      String (if previous_is_cased then lower_char c else upper_char c)
             (title_go (is_cased c) r)
  end.
Definition title : string → string := title_go false.

Fixpoint lstrip (s : string) : string :=
  match s with
  | EmptyString => EmptyString
  | String c r => if is_space c then lstrip r else s
  end.

Fixpoint rstrip (s : string) : string :=
  match s with
  | EmptyString => EmptyString
  | String c r =>
      match rstrip r with
      | EmptyString => if is_space c then EmptyString else String c EmptyString
      | r' => String c r'
      end
  end.

(** [s.strip()] *)
Definition strip (s : string) : string := rstrip (lstrip s).

Fixpoint startswith (p s : string) : bool :=
  match p, s with
  | EmptyString, _ => true
  | String a p', String b s' => bool_decide (a = b) && startswith p' s'
  | String _ _, EmptyString => false
  end.

(** [needle in hay] *)
Fixpoint contains (needle hay : string) : bool :=
  startswith needle hay ||
  match hay with
  | EmptyString => false
  | String _ r => contains needle r
  end.

(** [s[:n]] for [n >= 0] *)
Fixpoint take (n : nat) (s : string) : string :=
  match n, s with
  | S n', String c r => String c (take n' r)
  | _, _ => EmptyString
  end.

(** [len(s)] *)
Definition len (s : string) : Z := Z.of_nat (String.length s).

(** The truth value of a [str]: the empty text is falsy. *)
Definition truthy (s : string) : bool :=
  match s with EmptyString => false | _ => true end.

(** [(x or "")] for an optional text. *)
Definition or_empty (x : option string) : string := default "" x.

(** Normalisation of a layout name: [.strip().lower()]. *)
Definition normalize (s : string) : string := lower (strip s).

End PyStr.

(** ** Data model *)

(** A placeholder rule of the metadata: [ph["id"]],
    [ph.get("content_description")] and [ph.get("maxchars")]. *)
Record PlaceholderRule := {
  ph_id : Z;
  ph_content_description : option string;
  ph_maxchars : option Z
}.

(** A layout descriptor of the metadata: [l["layout_name"]],
    [l.get("layout_description")] and [l.get("placeholders")]. *)
Record LayoutDescriptor := {
  ld_layout_name : string;
  ld_layout_description : option string;
  ld_placeholders : option (list PlaceholderRule)
}.

(** The parsed metadata file; [meta.get("layouts")]. *)
Record RawMetadata := { raw_layouts : option (list LayoutDescriptor) }.

(** The metadata with the helper entries that [load_metadata] adds to it:
    [meta["_layouts_by_name"]], [meta["_must_have_names"]] and
    [meta["_ignore_names"]]. *)
Record Metadata := {
  layouts : option (list LayoutDescriptor);
  layouts_by_name : gmap string LayoutDescriptor;
  must_have_names : list string;
  ignore_names : list string
}.

(** A slide spec of a plan: [s.get("layout_name")] and
    [s.get("placeholders")]. *)
Record SlideSpec := {
  layout_name : option string;
  placeholders : option (gmap string string)
}.

(** A JSON value the program never looks into. *)
#[local] Set Warnings "-register-all".
Inductive json :=
| JNull
| JBool (b : bool)
| JNum (n : Z)
| JStr (s : string)
| JList (l : list json)
| JObj (l : list (string * json)).
#[local] Set Warnings "register-all".

(** The value of a top-level entry of a plan: the list of slide dicts that
    the annotation [List[Dict[str, Any]]] declares for ["slides"], or anything
    else. *)
Inductive PlanValue :=
| VSlides (slides : list SlideSpec)
| VOther (j : json).

(** A plan is a dict ([Dict[str, Any]]). *)
Abbreviation Plan := (gmap string PlanValue).

(** [plan.get("slides", [])]. A value under ["slides"] that is not a list of
    slide dicts is outside the declared type: the loops over it have no
    result in this model. *)
Definition plan_slides (plan : Plan) : option (list SlideSpec) :=
  match plan !! "slides" with
  | None => Some []
  | Some (VSlides slides) => Some slides
  | Some (VOther _) => None
  end.

(** ** [load_metadata] *)

(** [l.get("layout_description", "").lower()] *)
Definition description_lower (l : LayoutDescriptor) : string :=
  PyStr.lower (default "" (ld_layout_description l)).

(** The dict comprehension [{l["layout_name"].strip().lower(): l for l in ...}]:
    a later layout replaces an earlier one under the same key. *)
Definition index_layouts (ls : list LayoutDescriptor) : gmap string LayoutDescriptor :=
  foldl (λ acc l, <[PyStr.normalize (ld_layout_name l) := l]> acc) ∅ ls.

(** The list comprehension [[l["layout_name"] for l in ... if marker in ...]]. *)
Definition names_marked (marker : string) (ls : list LayoutDescriptor) : list string :=
  ld_layout_name <$> filter (λ l, PyStr.contains marker (description_lower l) = true) ls.

Definition load_metadata (meta : RawMetadata) : Metadata :=
  let ls := default [] (raw_layouts meta) in
  {| layouts := raw_layouts meta;
     layouts_by_name := index_layouts ls;
     must_have_names := names_marked "must have" ls;
     ignore_names := names_marked "ignore" ls |}.

(** ** [enforce_plan_rules]

    The module-level [METADATA] is the argument [M]. *)

(** [(s.get("layout_name") or "").strip().lower()] *)
Definition slide_key (s : SlideSpec) : string :=
  PyStr.normalize (PyStr.or_empty (layout_name s)).

(** [set([n.strip().lower() for n in METADATA["_ignore_names"]])] *)
Definition ignore_set (M : Metadata) : gset string :=
  list_to_set (PyStr.normalize <$> ignore_names M).

(** The first loop: [keep] collects the slides whose key is not ignored. *)
Definition keep_slides (M : Metadata) (slides : list SlideSpec) : list SlideSpec :=
  foldl (λ keep s, if decide (slide_key s ∈ ignore_set M) then keep else keep ++ [s])
        [] slides.

(** [set([(s.get("layout_name") or "").strip().lower() for s in slides])] *)
Definition present_set (slides : list SlideSpec) : gset string :=
  list_to_set (slide_key <$> slides).

(** The default text of one placeholder of a synthesized slide. *)
Definition default_text (ph : PlaceholderRule) : string :=
  let desc := PyStr.lower (default "" (ph_content_description ph)) in
  if PyStr.contains "title" desc && negb (PyStr.contains "summary" desc)
  then (if PyStr.contains "synonym" desc then "SUMMARY" else "TOPIC")
  else "Auto-generated content about the topic.".

(** The body of the inner loop: [placeholders[str(ph["id"])] = ...]. *)
Definition set_default_text (placeholders : gmap string string) (ph : PlaceholderRule) :
    gmap string string :=
  <[pretty (ph_id ph) := default_text ph]> placeholders.

(** The inner loop, over [layout.get("placeholders", [])], from [{}]. *)
Definition default_placeholders (layout : LayoutDescriptor) : gmap string string :=
  foldl set_default_text ∅ (default [] (ld_placeholders layout)).

(** The slide appended for a missing must-have layout. A descriptor found
    in the index is a dict with a ["layout_name"] entry, so [if layout:] holds
    for it. *)
Definition synthesize (M : Metadata) (must : string) : SlideSpec :=
  let key := PyStr.normalize must in
  let placeholders :=
    match layouts_by_name M !! key with
    | Some layout => default_placeholders layout
    | None => ∅
    end in
  {| layout_name := Some must; placeholders := Some placeholders |}.

(** The second loop: [present] is computed once, before the loop. *)
Definition add_must_haves (M : Metadata) (slides : list SlideSpec) : list SlideSpec :=
  let present := present_set slides in
  foldl (λ slides must,
           if decide (PyStr.normalize must ∈ present) then slides
           else slides ++ [synthesize M must])
        slides (must_have_names M).

(** The slides of the enforced plan. *)
Definition enforce_slides (M : Metadata) (slides : list SlideSpec) : list SlideSpec :=
  add_must_haves M (keep_slides M slides).

Definition enforce_plan_rules (M : Metadata) (plan : Plan) : option Plan :=
  slides ← plan_slides plan;
  Some (<["slides" := VSlides (enforce_slides M slides)]> plan).

(** ** The content rule transformer *)

Definition sentence_case (s : string) : string :=
  let s := PyStr.strip s in
  if negb (PyStr.truthy s) then s
  else match s with
       | EmptyString => s
       | String c r => PyStr.upper (String c "") +:+ r   (* s[0].upper() + s[1:] *)
       end.

Definition apply_content_rule (text : option string) (rule_desc : string) : string :=
  let d := PyStr.lower rule_desc in
  let t := PyStr.or_empty text in
  if PyStr.contains "all-caps" d || PyStr.contains "all caps" d then PyStr.upper t
  else if PyStr.contains "title case" d then PyStr.title t
  else if PyStr.contains "sentence case" d then sentence_case t
  else t.

(** [max_chars] is an integer or [None]; an integer is truthy when it is not
    zero. *)
Definition clip_text (text : string) (max_chars : option Z) : string :=
  match max_chars with
  | Some n =>
      if negb (n =? 0) && (0 <? n) && (n <? PyStr.len text)
      then PyStr.take (Z.to_nat n) text
      else text
  | None => text
  end.

(** The two steps [fill_placeholders] applies to a text, in its order. *)
Definition transform (text : option string) (rule_desc : string) (max_chars : option Z) :
    string :=
  clip_text (apply_content_rule text rule_desc) max_chars.

(** The description carries the marker, without regard to case. *)
Definition marked (marker desc : string) : Prop :=
  PyStr.contains marker (PyStr.lower desc) = true.

(** ** The template document

    The presentation library is outside the repository; the deck is modelled
    by what the program uses of it: the layouts of the template in declared
    order, each with a name and placeholder shapes, and the slides of the
    deck, each made from a layout with a copy of its placeholder shapes. *)
Module Pptx.

Record Shape := {
  idx : Z;                  (* shp.placeholder_format.idx *)
  has_text_frame : bool;    (* hasattr(shp, "text_frame") *)
  text : string             (* shp.text_frame.text *)
}.

Record SlideLayout := {
  name : option string;     (* l.name *)
  layout_placeholders : list Shape
}.

Record Slide := {
  slide_layout : SlideLayout;
  placeholders : list Shape
}.

Record Presentation := {
  slide_layouts : list SlideLayout;
  slides : list Slide
}.

(** The slide that [add_slide] makes from a layout. *)
Definition new_slide (layout : SlideLayout) : Slide :=
  {| slide_layout := layout; placeholders := layout_placeholders layout |}.

(** [prs.slides.add_slide(layout)], leaving the new slide as it is. *)
Definition add_slide (prs : Presentation) (slide : Slide) : Presentation :=
  {| slide_layouts := slide_layouts prs; slides := slides prs ++ [slide] |}.

End Pptx.

(** [l[i]] for a Python list: a negative index counts from the end, an index
    out of range raises. *)
Definition py_index {A} (l : list A) (i : Z) : option A :=
  let n := Z.of_nat (length l) in
  if (0 <=? i) && (i <? n) then l !! Z.to_nat i
  else if (i <? 0) && (0 <=? n + i) then l !! Z.to_nat (n + i)
  else None.

(** ** [find_layout] *)

(** [(l.name or "").strip().lower()] *)
Definition layout_key (l : Pptx.SlideLayout) : string :=
  PyStr.normalize (PyStr.or_empty (Pptx.name l)).

(** The loop [for l in ls: if p(l): return l]. *)
Fixpoint first_match {A} (p : A → bool) (ls : list A) : option A :=
  match ls with
  | [] => None
  | l :: ls' => if p l then Some l else first_match p ls'
  end.

Definition find_layout (prs : Pptx.Presentation) (layout_name : option string) :
    option Pptx.SlideLayout :=
  let target := PyStr.normalize (PyStr.or_empty layout_name) in
  (* exact match *)
  match first_match (λ l, bool_decide (layout_key l = target)) (Pptx.slide_layouts prs) with
  | Some l => Some l
  | None =>
      (* relaxed contains *)
      match first_match (λ l, PyStr.truthy target && PyStr.contains target (layout_key l))
                        (Pptx.slide_layouts prs) with
      | Some l => Some l
      | None =>
          (* fallback: first layout *)
          py_index (Pptx.slide_layouts prs) 0
      end
  end.

(** ** [fill_placeholders] *)

(** [rule_by_pid]: the placeholder rules of the layout that the metadata
    indexes under the normalized name, by id; empty when there is none. *)
Definition rule_by_pid (M : Metadata) (layout_name : string) : gmap Z PlaceholderRule :=
  match layouts_by_name M !! PyStr.normalize layout_name with
  | Some layout =>
      foldl (λ rules ph, <[ph_id ph := ph]> rules) ∅ (default [] (ld_placeholders layout))
  | None => ∅
  end.

(** The body of the loop over [slide.placeholders]. *)
Definition fill_shape (rules : gmap Z PlaceholderRule) (items : gmap string string)
    (shp : Pptx.Shape) : Pptx.Shape :=
  let pid := Pptx.idx shp in
  let key := pretty pid in
  match items !! key with
  | Some text =>
      if Pptx.has_text_frame shp then
        let rule_desc := default "" (rules !! pid ≫= ph_content_description) in
        let maxchars := rules !! pid ≫= ph_maxchars in
        let text := apply_content_rule (Some text) rule_desc in
        let text := clip_text text maxchars in
        {| Pptx.idx := pid; Pptx.has_text_frame := true; Pptx.text := text |}
      else shp
  | None => shp
  end.

Definition fill_placeholders (M : Metadata) (slide : Pptx.Slide) (layout_name : string)
    (items : gmap string string) : Pptx.Slide :=
  {| Pptx.slide_layout := Pptx.slide_layout slide;
     Pptx.placeholders := fill_shape (rule_by_pid M layout_name) items
                            <$> Pptx.placeholders slide |}.

(** ** [add_thank_you_slide] and [build_pptx_from_plan] *)

Definition add_thank_you_slide (prs : Pptx.Presentation) : option Pptx.Presentation :=
  last_layout ← py_index (Pptx.slide_layouts prs)
                         (Z.of_nat (length (Pptx.slide_layouts prs)) - 1);
  Some (Pptx.add_slide prs (Pptx.new_slide last_layout)).

(** [not (not layout_name)]: the name is there and is not empty. *)
Definition has_layout_name (slide_spec : SlideSpec) : bool :=
  match layout_name slide_spec with
  | Some name => PyStr.truthy name
  | None => false
  end.

(** The body of the loop over the slide specs; an error of [find_layout]
    is not caught. *)
Definition build_slide (M : Metadata) (prs : Pptx.Presentation) (slide_spec : SlideSpec) :
    option Pptx.Presentation :=
  let placeholders := default ∅ (placeholders slide_spec) in
  match layout_name slide_spec with
  | Some name =>
      if negb (PyStr.truthy name) then Some prs   (* continue *)
      else
        layout ← find_layout prs (Some name);
        Some (Pptx.add_slide prs
                (fill_placeholders M (Pptx.new_slide layout) name placeholders))
  | None => Some prs                               (* continue *)
  end.

Fixpoint build_slides (M : Metadata) (prs : Pptx.Presentation) (specs : list SlideSpec) :
    option Pptx.Presentation :=
  match specs with
  | [] => Some prs
  | slide_spec :: specs' => prs' ← build_slide M prs slide_spec; build_slides M prs' specs'
  end.

(** The deck that [build_pptx_from_plan] saves; [template] is what
    [Presentation(TEMPLATE_PPTX)] opens. The topic only names the file. *)
Definition build_pptx_from_plan (M : Metadata) (template : Pptx.Presentation) (plan : Plan) :
    option Pptx.Presentation :=
  specs ← plan_slides plan;
  prs ← build_slides M template specs;
  (* try: add_thank_you_slide(prs) except Exception: pass *)
  Some (default prs (add_thank_you_slide prs)).

(** [x] is the first element of [l] with the property [P]. *)
Definition first_with {A} (P : A → Prop) (l : list A) (x : A) : Prop :=
  ∃ pre post, l = pre ++ x :: post ∧ P x ∧ ∀ y, y ∈ pre → ¬ P y.

(** The slide that the deck builder makes for a slide spec with a name: from
    the layout that [find_layout] resolves the name to, filled under the rules
    of the name as the spec states it. *)
Definition compiled_from (M : Metadata) (template : Pptx.Presentation)
    (slide_spec : SlideSpec) (slide : Pptx.Slide) : Prop :=
  ∃ name layout,
    layout_name slide_spec = Some name
    ∧ find_layout template (Some name) = Some layout
    ∧ slide = fill_placeholders M (Pptx.new_slide layout) name
                (default ∅ (placeholders slide_spec)).

(** ** [safe_slug] *)

Definition is_digit (c : ascii) : bool := ((48 <=? PyStr.code c) && (PyStr.code c <=? 57))%N.

(** A character of the class [[a-z0-9\-\_]]. *)
Definition is_slug_char (c : ascii) : bool :=
  PyStr.is_lower c || is_digit c || bool_decide (c = "-"%char) || bool_decide (c = "_"%char).

(** [re.sub(r"[^a-z0-9\-\_\s]", "", s)]: the characters outside the class
    are dropped. *)
Fixpoint drop_unsafe (s : string) : string :=
  match s with
  | EmptyString => EmptyString
  | String c r =>
      if is_slug_char c || PyStr.is_space c then String c (drop_unsafe r)
      else drop_unsafe r
  end.

(** [re.sub(r"\s+", "-", s)]: every maximal run of white space becomes one
    dash; [in_run] tells that the character before was white space. *)
Fixpoint dash_runs (in_run : bool) (s : string) : string :=
  match s with
  | EmptyString => EmptyString
  | String c r =>
      if PyStr.is_space c then
        if in_run then dash_runs true r else String "-" (dash_runs true r)
      else String c (dash_runs false r)
  end.

Definition safe_slug (s : string) : string :=
  let s := PyStr.lower (PyStr.strip s) in
  let s := drop_unsafe s in
  let s := dash_runs false s in
  if PyStr.truthy s then s else "presentation".

(** Every character of the text passes the test. *)
Fixpoint all_chars (p : ascii → bool) (s : string) : bool :=
  match s with
  | EmptyString => true
  | String c r => p c && all_chars p r
  end.

(** ** The name of the saved file *)

(** [f"{slug}-{stamp}.pptx"], where [stamp] is what
    [datetime.now().strftime('%Y%m%d-%H%M%S')] returns. *)
Definition pptx_file_name (topic stamp : string) : string :=
  safe_slug topic +:+ "-" +:+ stamp +:+ ".pptx".

(** ** [stub_plan] *)

(** The loop of [pad]: [while len(s) < min_len: s += " " + base]. Every
    round makes [s] longer, which bounds the rounds. *)
Equations pad_loop (min_len : Z) (base s : string) : string
  by wf (Z.to_nat (min_len - PyStr.len s)) lt :=
  pad_loop min_len base s with Z_lt_dec (PyStr.len s) min_len := {
    | left _ => pad_loop min_len base (s +:+ " " +:+ base)
    | right _ => s }.
Next Obligation.
  intros.
  assert (Happ : ∀ a b, String.length (a +:+ b) = (String.length a + String.length b)%nat).
  { intros a b. induction a as [|c a IH]; [done|].
    change (S (String.length (a +:+ b)) = S (String.length a + String.length b)).
    by rewrite IH. }
  unfold PyStr.len in *. rewrite !Happ. simpl. lia.
Qed.

(** [pad(min_len, base)], the local function of [stub_plan]. *)
Definition pad (min_len : Z) (base : string) : string :=
  let s := pad_loop min_len base base in
  PyStr.take (Z.to_nat (Z.max min_len (PyStr.len base))) s.

(** [s.split(".")[0]]: the text before the first dot, all of it when there
    is none. *)
Fixpoint before_dot (s : string) : string :=
  match s with
  | EmptyString => EmptyString
  | String c r => if bool_decide (c = "."%char) then EmptyString else String c (before_dot r)
  end.

(** [while len(summary_desc) < 520:
       summary_desc += " " + summary_desc.split(".")[0] + "."] *)
Equations extend_summary (summary_desc : string) : string
  by wf (Z.to_nat (520 - PyStr.len summary_desc)) lt :=
  extend_summary summary_desc with Z_lt_dec (PyStr.len summary_desc) 520 := {
    | left _ => extend_summary (summary_desc +:+ " " +:+ before_dot summary_desc +:+ ".")
    | right _ => summary_desc }.
Next Obligation.
  intros.
  assert (Happ : ∀ a b, String.length (a +:+ b) = (String.length a + String.length b)%nat).
  { intros a b. induction a as [|c a IH]; [done|].
    change (S (String.length (a +:+ b)) = S (String.length a + String.length b)).
    by rewrite IH. }
  unfold PyStr.len in *. rewrite !Happ. simpl. lia.
Qed.

Definition agenda_desc : string :=
  pad 160
    ("This section introduces a key idea, provides context, and outlines what the student will learn in this part. "
     +:+ "It connects the topic to real-world relevance and sets clear expectations.").

Definition summary_desc : string :=
  extend_summary
    ("This summary consolidates the main concepts, definitions, and relationships covered in the lesson. It clarifies the core idea, "
     +:+ "highlights the essential steps or properties, and reflects on misconceptions. The section also suggests how to practice and "
     +:+ "apply the knowledge with confidence in new situations.").

Definition stub_plan (topic : string) : Plan :=
  {[ "slides" :=
       VSlides
         [ {| layout_name := Some "Blank";
              placeholders :=
                Some (list_to_map [ ("10", PyStr.upper topic); ("11", "An Overview") ]) |};
           {| layout_name := Some "2_Custom Layout";
              placeholders :=
                Some (list_to_map [ ("10", "INTRODUCTION"); ("12", "CORE IDEAS");
                                    ("11", "APPLICATIONS"); ("13", "SUMMARY");
                                    ("14", agenda_desc); ("15", agenda_desc);
                                    ("16", agenda_desc); ("17", agenda_desc) ]) |};
           {| layout_name := Some "14_Custom Layout";
              placeholders :=
                Some (list_to_map [ ("10", "SUMMARY"); ("11", summary_desc) ]) |} ] ]}.

(** ** Notions used to state the properties of enforcement *)

(** The slide uses an ignored layout. *)
Definition ignored (M : Metadata) (s : SlideSpec) : Prop := slide_key s ∈ ignore_set M.
#[global] Instance ignored_dec (M : Metadata) (s : SlideSpec) : Decision (ignored M s) :=
  decide (slide_key s ∈ ignore_set M).

(** No kept slide uses the must-have layout. *)
Definition missing (kept : list SlideSpec) (must : string) : Prop :=
  PyStr.normalize must ∉ present_set kept.
#[global] Instance missing_dec (kept : list SlideSpec) (must : string) :
  Decision (missing kept must) :=
  decide (PyStr.normalize must ∉ present_set kept).

(** The must-have names for which the second loop appends a slide. *)
Definition missing_must_haves (M : Metadata) (kept : list SlideSpec) : list string :=
  filter (missing kept) (must_have_names M).

(** The slides of the plan that [enforce_plan_rules] returns. *)
Definition enforced_slides (M : Metadata) (plan : Plan) : option (list SlideSpec) :=
  enforce_plan_rules M plan ≫= plan_slides.

(** The texts that enforcement gives to the placeholders of a slide it adds. *)
Definition default_texts : list string :=
  ["SUMMARY"; "TOPIC"; "Auto-generated content about the topic."].

(** The keys of the mapping built from a layout: [str(ph["id"])] of each of
    its placeholder rules. *)
Definition placeholder_keys (layout : LayoutDescriptor) : gset string :=
  list_to_set ((λ ph, pretty (ph_id ph)) <$> default [] (ld_placeholders layout)).

(** ** Sample data *)

(** Sample metadata: ["Promo"] carries both markers, ["Agenda"] is a plain
    must-have, ["Disclaimer"] is ignored. *)
Definition promo : LayoutDescriptor :=
  {| ld_layout_name := "Promo";
     ld_layout_description := Some "MUST HAVE on print, IGNORE on screen";
     ld_placeholders := None |}.
Definition agenda : LayoutDescriptor :=
  {| ld_layout_name := "Agenda";
     ld_layout_description := Some "Must have: the agenda";
     ld_placeholders :=
       Some [ {| ph_id := 10; ph_content_description := Some "Title in ALL-CAPS";
                 ph_maxchars := Some 20 |};
              {| ph_id := 11; ph_content_description := Some "Body, sentence case";
                 ph_maxchars := None |} ] |}.
Definition disclaimer : LayoutDescriptor :=
  {| ld_layout_name := "Disclaimer";
     ld_layout_description := Some "Legal text. IGNORE.";
     ld_placeholders := Some [] |}.

Definition cover : LayoutDescriptor :=
  {| ld_layout_name := "Cover";
     ld_layout_description := Some "Picture only. MUST HAVE.";
     ld_placeholders := Some [] |}.

Definition cover_only : Metadata :=
  load_metadata {| raw_layouts := Some [cover] |}.
Definition both_markers : Metadata :=
  load_metadata {| raw_layouts := Some [promo; agenda] |}.
Definition plain_markers : Metadata :=
  load_metadata {| raw_layouts := Some [agenda; disclaimer] |}.

Definition slide_of (name : string) : SlideSpec :=
  {| layout_name := Some name; placeholders := None |}.
Definition plan_of (slides : list SlideSpec) : Plan := {[ "slides" := VSlides slides ]}.


Definition plan_with_topic : Plan :=
  {[ "topic" := VOther (JStr "Photosynthesis");
     "slides" := VSlides [slide_of "Disclaimer"; slide_of "Other"] ]}.

(** The layout of the summary scenario: ["Conclusion"], with the single
    placeholder rule of id 7. *)
Definition conclusion (layout_desc content_desc : string) (maxchars : option Z) :
    LayoutDescriptor :=
  {| ld_layout_name := "Conclusion";
     ld_layout_description := Some layout_desc;
     ld_placeholders :=
       Some [ {| ph_id := 7; ph_content_description := Some content_desc;
                 ph_maxchars := maxchars |} ] |}.

Definition summary_slide : SlideSpec :=
  {| layout_name := Some "Conclusion"; placeholders := Some {[ "7" := "SUMMARY" ]} |}.

Definition title_shape : Pptx.Shape :=
  {| Pptx.idx := 10; Pptx.has_text_frame := true; Pptx.text := "" |}.
Definition body_shape : Pptx.Shape :=
  {| Pptx.idx := 11; Pptx.has_text_frame := true; Pptx.text := "" |}.

Definition agenda_layout : Pptx.SlideLayout :=
  {| Pptx.name := Some "Agenda"; Pptx.layout_placeholders := [title_shape; body_shape] |}.
Definition blank_layout : Pptx.SlideLayout :=
  {| Pptx.name := Some "Blank"; Pptx.layout_placeholders := [] |}.
Definition thanks_layout : Pptx.SlideLayout :=
  {| Pptx.name := Some "Thank You"; Pptx.layout_placeholders := [title_shape] |}.

Definition sample_template : Pptx.Presentation :=
  {| Pptx.slide_layouts := [blank_layout; agenda_layout; thanks_layout];
     Pptx.slides := [] |}.

Definition unnamed_slide : SlideSpec := {| layout_name := None; placeholders := None |}.
(** * Properties *)

(** ** The string methods on sample texts *)

Example lower_ex : PyStr.lower "  MUST Have-9 " = "  must have-9 ".
Proof. reflexivity. Qed.
Example upper_ex : PyStr.upper "all caps, 1x" = "ALL CAPS, 1X".
Proof. reflexivity. Qed.
Example title_ex : PyStr.title "they're hERE 2day" = "They'Re Here 2Day".
Proof. reflexivity. Qed.
Example strip_ex : PyStr.strip "  a b  " = "a b".
Proof. reflexivity. Qed.
Example contains_ex :
  PyStr.contains "must have" "this is a must have layout" = true
  ∧ PyStr.contains "" "" = true ∧ PyStr.contains "ab" "a b" = false.
Proof. repeat split; reflexivity. Qed.
Example take_ex : PyStr.take 3 "abcdef" = "abc" ∧ PyStr.take 9 "ab" = "ab".
Proof. split; reflexivity. Qed.

(** ** The two loops of [enforce_plan_rules] as list operations *)

Section EnforceLoops.
Context (M : Metadata).

Lemma keep_loop_filter (acc slides : list SlideSpec) :
  foldl (λ keep s, if decide (slide_key s ∈ ignore_set M) then keep else keep ++ [s])
        acc slides
  = acc ++ filter (λ s, ¬ ignored M s) slides.
Proof.
  revert acc. induction slides as [|s slides IH]; intros acc; simpl.
  - by rewrite app_nil_r.
  - rewrite IH. unfold ignored at 2. destruct (decide (slide_key s ∈ ignore_set M)).
    + by rewrite filter_cons_False by (intros H; by apply H).
    + rewrite filter_cons_True by done. by rewrite <- app_assoc.
Qed.

Lemma keep_slides_filter (slides : list SlideSpec) :
  keep_slides M slides = filter (λ s, ¬ ignored M s) slides.
Proof. unfold keep_slides. by rewrite keep_loop_filter. Qed.

Lemma must_loop_app (present : gset string) (acc : list SlideSpec) (musts : list string) :
  foldl (λ slides must,
           if decide (PyStr.normalize must ∈ present) then slides
           else slides ++ [synthesize M must])
        acc musts
  = acc ++ (synthesize M <$> filter (λ must, PyStr.normalize must ∉ present) musts).
Proof.
  revert acc. induction musts as [|must musts IH]; intros acc; simpl.
  - by rewrite app_nil_r.
  - rewrite IH. destruct (decide (PyStr.normalize must ∈ present)).
    + by rewrite filter_cons_False by (intros H; by apply H).
    + rewrite filter_cons_True by done. by rewrite fmap_cons, <- app_assoc.
Qed.

Lemma add_must_haves_app (kept : list SlideSpec) :
  add_must_haves M kept = kept ++ (synthesize M <$> missing_must_haves M kept).
Proof. unfold add_must_haves. by rewrite must_loop_app. Qed.

Lemma enforce_slides_app (slides : list SlideSpec) :
  enforce_slides M slides
  = keep_slides M slides ++ (synthesize M <$> missing_must_haves M (keep_slides M slides)).
Proof. unfold enforce_slides. apply add_must_haves_app. Qed.

Lemma slide_key_synthesize (must : string) :
  slide_key (synthesize M must) = PyStr.normalize must.
Proof. reflexivity. Qed.

Lemma elem_of_present_set (kept : list SlideSpec) (key : string) :
  key ∈ present_set kept ↔ ∃ s, s ∈ kept ∧ slide_key s = key.
Proof.
  unfold present_set. rewrite elem_of_list_to_set, list_elem_of_fmap. naive_solver.
Qed.

Lemma elem_of_keep_slides (slides : list SlideSpec) (s : SlideSpec) :
  s ∈ keep_slides M slides ↔ ¬ ignored M s ∧ s ∈ slides.
Proof. rewrite keep_slides_filter. apply (list_elem_of_filter (λ s, ¬ ignored M s)). Qed.

Lemma elem_of_enforce_slides (slides : list SlideSpec) (s : SlideSpec) :
  s ∈ enforce_slides M slides ↔
  (¬ ignored M s ∧ s ∈ slides)
  ∨ ∃ must, must ∈ must_have_names M ∧ missing (keep_slides M slides) must
            ∧ s = synthesize M must.
Proof.
  rewrite enforce_slides_app, elem_of_app, elem_of_keep_slides, list_elem_of_fmap.
  unfold missing_must_haves. setoid_rewrite list_elem_of_filter. naive_solver.
Qed.

End EnforceLoops.

Lemma plan_slides_insert (plan : Plan) (slides : list SlideSpec) :
  plan_slides (<["slides" := VSlides slides]> plan) = Some slides.
Proof. unfold plan_slides. by rewrite lookup_insert_eq. Qed.

Lemma enforce_plan_rules_Some (M : Metadata) (plan : Plan) (slides : list SlideSpec) :
  plan_slides plan = Some slides →
  enforce_plan_rules M plan = Some (<["slides" := VSlides (enforce_slides M slides)]> plan).
Proof. intros H. unfold enforce_plan_rules. by rewrite H. Qed.

Lemma enforced_slides_Some (M : Metadata) (plan : Plan) (slides : list SlideSpec) :
  plan_slides plan = Some slides →
  enforced_slides M plan = Some (enforce_slides M slides).
Proof.
  intros H. unfold enforced_slides. rewrite (enforce_plan_rules_Some _ _ _ H). simpl.
  apply plan_slides_insert.
Qed.

(** A plan whose ["slides"] entry is ill-typed has no result, and only such
    a plan. *)
Lemma enforce_plan_rules_None (M : Metadata) (plan : Plan) :
  enforce_plan_rules M plan = None ↔ ∃ j, plan !! "slides" = Some (VOther j).
Proof.
  unfold enforce_plan_rules, plan_slides.
  destruct (plan !! "slides") as [[sl|j]|]; simpl; naive_solver.
Qed.

(** ** Forbidden exclusion *)

Lemma enforced_both_markers :
  enforced_slides both_markers (plan_of [slide_of "Promo"])
  = Some [synthesize both_markers "Promo"; synthesize both_markers "Agenda"].
Proof. reflexivity. Qed.

Lemma promo_ignored : ignored both_markers (synthesize both_markers "Promo").
Proof. apply (bool_decide_unpack _). reflexivity. Qed.

(** C1, as stated, fails: with a layout whose description carries both
    markers, the plan loses its own ["Promo"] slide and gets a synthesized one,
    whose layout is in the forbidden set. *)
Lemma forbidden_exclusion_fails :
  ¬ (∀ (M : Metadata) (plan : Plan) (slides : list SlideSpec) (s : SlideSpec),
       enforced_slides M plan = Some slides → s ∈ slides → ¬ ignored M s).
Proof.
  intros H.
  apply (H both_markers (plan_of [slide_of "Promo"]) _
           (synthesize both_markers "Promo") enforced_both_markers).
  - apply list_elem_of_here.
  - apply promo_ignored.
Qed.

(** C1 (amended): the slides that survive the filter are never forbidden;
    a slide of the enforced plan with a forbidden normalized layout name is one
    that enforcement synthesized for a must-have layout whose normalized name is
    itself in the forbidden set. So the enforced plan is free of forbidden
    layouts whenever no must-have name normalizes into the forbidden set. *)
Theorem forbidden_only_when_also_mandatory
    (M : Metadata) (plan : Plan) (slides : list SlideSpec) :
  plan_slides plan = Some slides →
  ∃ slides', enforced_slides M plan = Some slides'
    ∧ (∀ s, s ∈ keep_slides M slides → ¬ ignored M s)
    ∧ (∀ s, s ∈ slides' → ignored M s →
         ∃ must, must ∈ must_have_names M
                 ∧ PyStr.normalize must ∈ ignore_set M
                 ∧ s = synthesize M must)
    ∧ ((∀ must, must ∈ must_have_names M → PyStr.normalize must ∉ ignore_set M) →
       ∀ s, s ∈ slides' → ¬ ignored M s).
Proof.
  intros Hplan. exists (enforce_slides M slides).
  assert (Hsyn : ∀ s, s ∈ enforce_slides M slides → ignored M s →
            ∃ must, must ∈ must_have_names M
                    ∧ PyStr.normalize must ∈ ignore_set M
                    ∧ s = synthesize M must).
  { intros s Hs Hign. apply elem_of_enforce_slides in Hs as [[Hno _]|(must & Hm & _ & ->)].
    - contradiction.
    - exists must. split; [done|]. split; [|done].
      unfold ignored in Hign. by rewrite slide_key_synthesize in Hign. }
  split; [by apply enforced_slides_Some|]. split; [|split].
  - intros s Hs. by apply elem_of_keep_slides in Hs as [Hno _].
  - exact Hsyn.
  - intros Hdisj s Hs Hign. destruct (Hsyn s Hs Hign) as (must & Hm & Hin & _).
    by apply (Hdisj must).
Qed.

Lemma forbidden_only_when_also_mandatory_witness :
  ∃ slides',
    enforced_slides plain_markers (plan_of [slide_of "Disclaimer"; slide_of "Other"])
    = Some slides'
    ∧ (∀ s, s ∈ keep_slides plain_markers [slide_of "Disclaimer"; slide_of "Other"] →
         ¬ ignored plain_markers s)
    ∧ (∀ s, s ∈ slides' → ignored plain_markers s →
         ∃ must, must ∈ must_have_names plain_markers
                 ∧ PyStr.normalize must ∈ ignore_set plain_markers
                 ∧ s = synthesize plain_markers must)
    ∧ ((∀ must, must ∈ must_have_names plain_markers →
          PyStr.normalize must ∉ ignore_set plain_markers) →
       ∀ s, s ∈ slides' → ¬ ignored plain_markers s).
Proof.
  apply (forbidden_only_when_also_mandatory plain_markers
           (plan_of [slide_of "Disclaimer"; slide_of "Other"])
           [slide_of "Disclaimer"; slide_of "Other"]).
  reflexivity.
Defined.

(** ** Mandatory presence *)

(** C2: after enforcement every must-have layout name of the metadata is,
    under normalization, the layout of some slide of the result; the plan may
    have any slides, or no ["slides"] entry at all. *)
Theorem mandatory_presence (M : Metadata) (plan : Plan) (slides : list SlideSpec) :
  plan_slides plan = Some slides →
  ∃ slides', enforced_slides M plan = Some slides'
    ∧ ∀ must, must ∈ must_have_names M →
        ∃ s, s ∈ slides' ∧ slide_key s = PyStr.normalize must.
Proof.
  intros Hplan. exists (enforce_slides M slides).
  split; [by apply enforced_slides_Some|]. intros must Hmust.
  destruct (decide (missing (keep_slides M slides) must)) as [Hmiss|Hpres].
  - exists (synthesize M must). split; [|apply slide_key_synthesize].
    apply elem_of_enforce_slides. right. by exists must.
  - apply dec_stable in Hpres. apply elem_of_present_set in Hpres as (s & Hs & Hkey).
    exists s. split; [|done]. rewrite enforce_slides_app. apply elem_of_app. by left.
Qed.

Lemma mandatory_presence_witness :
  ∃ slides', enforced_slides both_markers ∅ = Some slides'
    ∧ ∀ must, must ∈ must_have_names both_markers →
        ∃ s, s ∈ slides' ∧ slide_key s = PyStr.normalize must.
Proof. apply (mandatory_presence both_markers ∅ []). reflexivity. Defined.

(** ** Idempotence of enforcement *)

Lemma enforce_twice_both_markers :
  enforce_plan_rules both_markers ∅
  = Some (plan_of [synthesize both_markers "Promo"; synthesize both_markers "Agenda"])
  ∧ enforce_plan_rules both_markers
      (plan_of [synthesize both_markers "Promo"; synthesize both_markers "Agenda"])
    = Some (plan_of [synthesize both_markers "Agenda"; synthesize both_markers "Promo"]).
Proof. split; reflexivity. Qed.

(** C5, as stated, fails: the second run drops the slide synthesized for
    ["Promo"], whose description carries both markers, and appends it again
    behind ["Agenda"]. *)
Lemma enforce_not_idempotent :
  ¬ (∀ (M : Metadata) (plan plan' : Plan),
       enforce_plan_rules M plan = Some plan' →
       enforce_plan_rules M plan' = Some plan').
Proof.
  intros H. destruct enforce_twice_both_markers as [H1 H2].
  specialize (H both_markers ∅ _ H1). rewrite H2 in H.
  apply (inj Some) in H.
  apply (f_equal (λ p : Plan, p !! "slides")) in H.
  unfold plan_of in H. rewrite !lookup_singleton_eq in H. discriminate H.
Qed.

Lemma filter_id {A} (P : A → Prop) `{∀ x, Decision (P x)} (l : list A) :
  (∀ x, x ∈ l → P x) → filter P l = l.
Proof.
  induction l as [|x l IH]; intros Hall; [done|].
  rewrite filter_cons_True by (apply Hall; left).
  f_equal. apply IH. intros y Hy. apply Hall. by right.
Qed.

Lemma filter_none {A} (P : A → Prop) `{∀ x, Decision (P x)} (l : list A) :
  (∀ x, x ∈ l → ¬ P x) → filter P l = [].
Proof.
  induction l as [|x l IH]; intros Hall; [done|].
  rewrite filter_cons_False by (apply Hall; left).
  apply IH. intros y Hy. apply Hall. by right.
Qed.

Lemma enforce_slides_fixed (M : Metadata) (slides : list SlideSpec) :
  (∀ s, s ∈ slides → ¬ ignored M s) →
  (∀ must, must ∈ must_have_names M → ¬ missing slides must) →
  enforce_slides M slides = slides.
Proof.
  intros Hkeep Hpres.
  assert (Hk : keep_slides M slides = slides).
  { rewrite keep_slides_filter. by apply filter_id. }
  rewrite enforce_slides_app, Hk. unfold missing_must_haves.
  rewrite filter_none by done. apply app_nil_r.
Qed.

Lemma enforce_slides_idempotent (M : Metadata) (slides : list SlideSpec) :
  (∀ must, must ∈ must_have_names M → PyStr.normalize must ∉ ignore_set M) →
  enforce_slides M (enforce_slides M slides) = enforce_slides M slides.
Proof.
  intros Hdisj. apply enforce_slides_fixed.
  - intros s Hs Hign.
    apply elem_of_enforce_slides in Hs as [[Hno _]|(must & Hm & _ & ->)]; [done|].
    by apply (Hdisj must).
  - intros must Hmust Hmiss. apply Hmiss. apply elem_of_present_set.
    destruct (decide (missing (keep_slides M slides) must)) as [Hm|Hp].
    + exists (synthesize M must). split; [|apply slide_key_synthesize].
      apply elem_of_enforce_slides. right. by exists must.
    + apply dec_stable in Hp. apply elem_of_present_set in Hp as (s & Hs & Hkey).
      exists s. split; [|done]. rewrite enforce_slides_app. apply elem_of_app. by left.
Qed.

(** C5 (amended): when no must-have name normalizes into the forbidden set,
    enforcing an enforced plan returns it unchanged: the same entries, the same
    slides in the same order with the same placeholder mappings. *)
Theorem enforce_idempotent (M : Metadata) (plan : Plan) (slides : list SlideSpec) :
  (∀ must, must ∈ must_have_names M → PyStr.normalize must ∉ ignore_set M) →
  plan_slides plan = Some slides →
  ∃ plan', enforce_plan_rules M plan = Some plan'
           ∧ enforce_plan_rules M plan' = Some plan'.
Proof.
  intros Hdisj Hplan. eexists. split; [by apply enforce_plan_rules_Some|].
  rewrite (enforce_plan_rules_Some M _ (enforce_slides M slides))
    by apply plan_slides_insert.
  by rewrite insert_insert_eq, enforce_slides_idempotent.
Qed.

Lemma plain_markers_disjoint (must : string) :
  must ∈ must_have_names plain_markers →
  PyStr.normalize must ∉ ignore_set plain_markers.
Proof.
  intros Hin. apply list_elem_of_singleton in Hin as ->.
  apply (bool_decide_unpack _). reflexivity.
Defined.

Lemma enforce_idempotent_witness :
  ∃ plan',
    enforce_plan_rules plain_markers
      (plan_of [slide_of "Disclaimer"; slide_of "Other"]) = Some plan'
    ∧ enforce_plan_rules plain_markers plan' = Some plan'.
Proof.
  apply (enforce_idempotent plain_markers
           (plan_of [slide_of "Disclaimer"; slide_of "Other"])
           [slide_of "Disclaimer"; slide_of "Other"]).
  - exact plain_markers_disjoint.
  - reflexivity.
Defined.

(** ** The frame of enforcement *)

(** C9: enforcement writes the ["slides"] entry and nothing else: every
    other top-level key of the plan keeps its value, absent keys other than
    ["slides"] stay absent, and ["slides"] holds the enforced slide list. *)
Theorem enforce_frame (M : Metadata) (plan : Plan) (slides : list SlideSpec) :
  plan_slides plan = Some slides →
  ∃ plan', enforce_plan_rules M plan = Some plan'
    ∧ (∀ k, k ≠ "slides" → plan' !! k = plan !! k)
    ∧ dom plan' = {["slides"]} ∪ dom plan
    ∧ plan' !! "slides" = Some (VSlides (enforce_slides M slides)).
Proof.
  intros Hplan. eexists. split; [by apply enforce_plan_rules_Some|].
  split; [|split].
  - intros k Hk. by apply lookup_insert_ne.
  - apply dom_insert_L.
  - apply lookup_insert_eq.
Qed.

Lemma enforce_frame_witness :
  ∃ plan', enforce_plan_rules plain_markers plan_with_topic = Some plan'
    ∧ (∀ k, k ≠ "slides" → plan' !! k = plan_with_topic !! k)
    ∧ dom plan' = {["slides"]} ∪ dom plan_with_topic
    ∧ plan' !! "slides"
      = Some (VSlides (enforce_slides plain_markers
                         [slide_of "Disclaimer"; slide_of "Other"])).
Proof.
  apply (enforce_frame plain_markers plan_with_topic
           [slide_of "Disclaimer"; slide_of "Other"]).
  reflexivity.
Defined.

(** ** The metadata index *)

Lemma index_layouts_snoc (ls : list LayoutDescriptor) (l : LayoutDescriptor) :
  index_layouts (ls ++ [l])
  = <[PyStr.normalize (ld_layout_name l) := l]> (index_layouts ls).
Proof. unfold index_layouts. by rewrite foldl_snoc. Qed.

(** A later layout under the same key wins. *)
Lemma index_layouts_app_lookup (pre post : list LayoutDescriptor) (key : string) :
  (∀ l, l ∈ post → PyStr.normalize (ld_layout_name l) ≠ key) →
  index_layouts (pre ++ post) !! key = index_layouts pre !! key.
Proof.
  induction post as [|l post IH] using rev_ind; intros Hpost.
  - by rewrite app_nil_r.
  - rewrite app_assoc, index_layouts_snoc, lookup_insert_ne.
    + apply IH. intros l' Hl'. apply Hpost, elem_of_app. by left.
    + apply Hpost, elem_of_app. right. apply list_elem_of_here.
Qed.

Lemma index_layouts_lookup (pre post : list LayoutDescriptor) (l : LayoutDescriptor) :
  (∀ l', l' ∈ post → PyStr.normalize (ld_layout_name l') ≠ PyStr.normalize (ld_layout_name l)) →
  index_layouts (pre ++ l :: post) !! PyStr.normalize (ld_layout_name l) = Some l.
Proof.
  intros Hpost. rewrite (app_assoc pre [l] post : pre ++ l :: post = _).
  rewrite index_layouts_app_lookup by done.
  rewrite index_layouts_snoc. apply lookup_insert_eq.
Qed.

(** Every layout name of the metadata is indexed, under its normalized
    form, by some layout of that normalized name. *)
Lemma index_layouts_is_Some (ls : list LayoutDescriptor) (l : LayoutDescriptor) :
  l ∈ ls → is_Some (index_layouts ls !! PyStr.normalize (ld_layout_name l)).
Proof.
  induction ls as [|l' ls IH] using rev_ind; intros Hin.
  - by apply not_elem_of_nil in Hin.
  - rewrite index_layouts_snoc.
    destruct (decide (PyStr.normalize (ld_layout_name l')
                      = PyStr.normalize (ld_layout_name l))) as [->|Hne].
    + rewrite lookup_insert_eq. by eexists.
    + rewrite lookup_insert_ne by done. apply IH.
      apply elem_of_app in Hin as [Hin|Hin]; [done|].
      apply list_elem_of_singleton in Hin as ->. done.
Qed.

Lemma elem_of_names_marked (marker : string) (ls : list LayoutDescriptor) (name : string) :
  name ∈ names_marked marker ls ↔
  ∃ l, l ∈ ls ∧ ld_layout_name l = name
       ∧ PyStr.contains marker (description_lower l) = true.
Proof.
  unfold names_marked. rewrite list_elem_of_fmap. split.
  - intros (l & -> & [Hc Hl]%list_elem_of_filter). by exists l.
  - intros (l & Hl & <- & Hc). exists l. split; [done|]. by apply list_elem_of_filter.
Qed.

(** The lookup of a must-have name in the index never misses. *)
Lemma must_have_indexed (meta : RawMetadata) (must : string) :
  must ∈ must_have_names (load_metadata meta) →
  is_Some (layouts_by_name (load_metadata meta) !! PyStr.normalize must).
Proof.
  simpl. intros (l & Hl & <- & _)%elem_of_names_marked. by apply index_layouts_is_Some.
Qed.

(** ** The default content of a synthesized slide *)

Lemma default_text_cases (ph : PlaceholderRule) : default_text ph ∈ default_texts.
Proof.
  unfold default_text, default_texts.
  destruct (PyStr.contains "title" _ && negb (PyStr.contains "summary" _));
    [destruct (PyStr.contains "synonym" _)|];
    repeat first [apply list_elem_of_here | apply list_elem_of_further].
Qed.

Lemma placeholder_loop_dom (acc : gmap string string) (phs : list PlaceholderRule) :
  dom (foldl set_default_text acc phs)
  = dom acc ∪ list_to_set ((λ ph, pretty (ph_id ph)) <$> phs).
Proof.
  revert acc. induction phs as [|ph phs IH]; intros acc; simpl.
  - set_solver.
  - rewrite IH. unfold set_default_text. rewrite dom_insert_L. set_solver.
Qed.

Lemma placeholder_loop_values (acc : gmap string string) (phs : list PlaceholderRule) :
  (∀ k v, acc !! k = Some v → v ∈ default_texts) →
  ∀ k v, foldl set_default_text acc phs !! k = Some v → v ∈ default_texts.
Proof.
  revert acc. induction phs as [|ph phs IH]; intros acc Hacc; simpl; [done|].
  apply IH. intros k v. unfold set_default_text. rewrite lookup_insert.
  case_decide; [|by apply Hacc].
  intros [= <-]. apply default_text_cases.
Qed.

Lemma default_placeholders_dom (layout : LayoutDescriptor) :
  dom (default_placeholders layout) = placeholder_keys layout.
Proof.
  unfold default_placeholders, placeholder_keys.
  rewrite placeholder_loop_dom, dom_empty_L. set_solver.
Qed.

Lemma default_placeholders_values (layout : LayoutDescriptor) (k v : string) :
  default_placeholders layout !! k = Some v → v ∈ default_texts.
Proof.
  unfold default_placeholders. apply placeholder_loop_values.
  intros k' v'. by rewrite lookup_empty.
Qed.

Lemma default_placeholders_empty (layout : LayoutDescriptor) :
  default_placeholders layout = ∅ ↔ default [] (ld_placeholders layout) = [].
Proof.
  split.
  - intros Hempty. pose proof (default_placeholders_dom layout) as Hdom.
    rewrite Hempty, dom_empty_L in Hdom. unfold placeholder_keys in Hdom.
    destruct (default [] (ld_placeholders layout)) as [|ph phs]; [done|].
    exfalso. apply (not_elem_of_empty (C := gset string) (pretty (ph_id ph))).
    rewrite Hdom. apply elem_of_list_to_set. rewrite fmap_cons. apply list_elem_of_here.
  - intros Hnil. unfold default_placeholders. by rewrite Hnil.
Qed.

Lemma cover_mapping_empty :
  enforced_slides cover_only ∅
  = Some (keep_slides cover_only [] ++ [synthesize cover_only "Cover"])
  ∧ missing_must_haves cover_only (keep_slides cover_only []) = ["Cover"]
  ∧ placeholders (synthesize cover_only "Cover") = Some ∅
  ∧ layouts_by_name cover_only !! PyStr.normalize "Cover" = Some cover.
Proof. repeat split; reflexivity. Qed.

(** C10, as stated, fails: a must-have layout that declares no placeholders
    is indexed under its name, and the slide synthesized for it has the empty
    mapping; so the mapping is not empty only when no descriptor is indexed. *)
Lemma empty_mapping_only_without_descriptor_fails :
  ¬ (∀ (M : Metadata) (plan : Plan) (slides news : list SlideSpec),
       plan_slides plan = Some slides →
       enforced_slides M plan = Some (keep_slides M slides ++ news) →
       Forall2
         (λ must s,
            placeholders s = Some ∅ →
            layouts_by_name M !! PyStr.normalize must = None)
         (missing_must_haves M (keep_slides M slides)) news).
Proof.
  intros H. destruct cover_mapping_empty as (Henf & Hmiss & Hempty & Hidx).
  specialize (H cover_only ∅ [] _ eq_refl Henf). rewrite Hmiss in H.
  apply Forall2_cons_1 in H as [H _]. specialize (H Hempty).
  rewrite Hidx in H. discriminate H.
Qed.

(** C10 (amended): the slides that enforcement appends are, in the declared
    order of the must-have names missing from the kept slides, slides named
    after those layouts; the keys of the placeholder mapping of each are exactly
    the decimal strings of the placeholder ids of the descriptor indexed under
    the normalized name, and every value is one of the three default texts. The
    mapping is empty exactly when that descriptor declares no placeholders, or
    when no descriptor is indexed under the name. *)
Theorem synthesized_slide_placeholders
    (M : Metadata) (plan : Plan) (slides : list SlideSpec) :
  plan_slides plan = Some slides →
  ∃ news, enforced_slides M plan = Some (keep_slides M slides ++ news)
    ∧ Forall2
        (λ must s,
           layout_name s = Some must
           ∧ ∃ phs, placeholders s = Some phs
               ∧ match layouts_by_name M !! PyStr.normalize must with
                 | Some layout =>
                     dom phs = placeholder_keys layout
                     ∧ (∀ k v, phs !! k = Some v → v ∈ default_texts)
                     ∧ (phs = ∅ ↔ default [] (ld_placeholders layout) = [])
                 | None => phs = ∅
                 end)
        (missing_must_haves M (keep_slides M slides)) news.
Proof.
  intros Hplan. exists (synthesize M <$> missing_must_haves M (keep_slides M slides)).
  split; [by rewrite (enforced_slides_Some _ _ _ Hplan), enforce_slides_app|].
  apply Forall2_fmap_r, Forall_Forall2_diag, Forall_forall. intros must _.
  split; [done|]. eexists. split; [done|].
  destruct (layouts_by_name M !! PyStr.normalize must) as [layout|]; [|done].
  split; [apply default_placeholders_dom|].
  split; [apply default_placeholders_values|apply default_placeholders_empty].
Qed.

Lemma synthesized_slide_placeholders_witness :
  ∃ news, enforced_slides plain_markers ∅ = Some (keep_slides plain_markers [] ++ news)
    ∧ Forall2
        (λ must s,
           layout_name s = Some must
           ∧ ∃ phs, placeholders s = Some phs
               ∧ match layouts_by_name plain_markers !! PyStr.normalize must with
                 | Some layout =>
                     dom phs = placeholder_keys layout
                     ∧ (∀ k v, phs !! k = Some v → v ∈ default_texts)
                     ∧ (phs = ∅ ↔ default [] (ld_placeholders layout) = [])
                 | None => phs = ∅
                 end)
        (missing_must_haves plain_markers (keep_slides plain_markers [])) news.
Proof. apply (synthesized_slide_placeholders plain_markers ∅ []). reflexivity. Defined.

Example synthesized_agenda :
  enforced_slides plain_markers ∅
  = Some [ {| layout_name := Some "Agenda";
              placeholders :=
                Some {[ "10" := "TOPIC";
                        "11" := "Auto-generated content about the topic." ]} |} ].
Proof. reflexivity. Qed.

(** ** Scenario: the synthesized summary slide *)

Lemma names_marked_none (marker : string) (ls : list LayoutDescriptor) :
  (∀ l, l ∈ ls → PyStr.contains marker (description_lower l) = false) →
  names_marked marker ls = [].
Proof.
  intros Hnone. unfold names_marked. rewrite filter_none; [done|].
  intros l Hl Hc. rewrite (Hnone l Hl) in Hc. discriminate Hc.
Qed.

Lemma names_marked_app (marker : string) (ls ls' : list LayoutDescriptor) :
  names_marked marker (ls ++ ls') = names_marked marker ls ++ names_marked marker ls'.
Proof. unfold names_marked. by rewrite filter_app, fmap_app. Qed.

Lemma generic_text_when_summary :
  enforce_plan_rules
    (load_metadata
       {| raw_layouts := Some [conclusion "MUST HAVE" "Title: a synonym of Summary" None] |})
    ∅
  = Some (plan_of [ {| layout_name := Some "Conclusion";
                       placeholders :=
                         Some {[ "7" := "Auto-generated content about the topic." ]} |} ]).
Proof. reflexivity. Qed.

(** C7, as stated, fails: a description can contain "title" and "synonym"
    and "summary" too, and then the placeholder gets the generic sentence. *)
Lemma summary_scenario_fails :
  ¬ (∀ content_desc : string,
       PyStr.contains "title" (PyStr.lower content_desc) = true →
       PyStr.contains "synonym" (PyStr.lower content_desc) = true →
       enforce_plan_rules
         (load_metadata {| raw_layouts := Some [conclusion "MUST HAVE" content_desc None] |})
         ∅
       = Some (plan_of [summary_slide])).
Proof.
  intros H. specialize (H "Title: a synonym of Summary" eq_refl eq_refl).
  rewrite generic_text_when_summary in H. apply (inj Some) in H.
  apply (f_equal (λ p : Plan, p !! "slides")) in H.
  unfold plan_of in H. rewrite !lookup_singleton_eq in H.
  apply (f_equal (λ v, match v with
                       | Some (VSlides [s]) => placeholders s ≫= (.!! "7")
                       | _ => None
                       end)) in H.
  simpl in H. rewrite !lookup_singleton_eq in H. discriminate H.
Qed.

(** C7 (amended): when the metadata declares exactly one must-have layout,
    ["Conclusion"], indexed under its normalized name, whose only placeholder,
    of id 7, has a content description that contains "title" and "synonym" but
    not "summary" (all without regard to case), enforcing a plan without slides
    sets its slides to the single slide
    [{layout_name: "Conclusion", placeholders: {"7": "SUMMARY"}}]. *)
Theorem summary_scenario
    (pre post : list LayoutDescriptor) (layout_desc content_desc : string)
    (maxchars : option Z) (plan : Plan) :
  PyStr.contains "must have" (PyStr.lower layout_desc) = true →
  PyStr.contains "title" (PyStr.lower content_desc) = true →
  PyStr.contains "synonym" (PyStr.lower content_desc) = true →
  PyStr.contains "summary" (PyStr.lower content_desc) = false →
  (∀ l, l ∈ pre ++ post → PyStr.contains "must have" (description_lower l) = false) →
  (∀ l, l ∈ post → PyStr.normalize (ld_layout_name l) ≠ "conclusion") →
  plan_slides plan = Some [] →
  enforce_plan_rules
    (load_metadata
       {| raw_layouts := Some (pre ++ conclusion layout_desc content_desc maxchars :: post) |})
    plan
  = Some (<["slides" := VSlides [summary_slide]]> plan).
Proof.
  intros Hmust Htitle Hsyn Hsum Hothers Hpost Hplan.
  rewrite (enforce_plan_rules_Some _ _ _ Hplan). do 3 f_equal.
  unfold enforce_slides, add_must_haves, keep_slides. simpl.
  rewrite names_marked_app, (names_marked_none _ pre)
    by (intros l Hl; apply Hothers, elem_of_app; by left).
  change (conclusion layout_desc content_desc maxchars :: post)
    with ([conclusion layout_desc content_desc maxchars] ++ post).
  rewrite names_marked_app, (names_marked_none _ post)
    by (intros l Hl; apply Hothers, elem_of_app; by right).
  unfold names_marked at 1. rewrite filter_cons_True by exact Hmust. simpl.
  unfold synthesize. simpl.
  change (PyStr.normalize "Conclusion")
    with (PyStr.normalize (ld_layout_name (conclusion layout_desc content_desc maxchars))).
  rewrite index_layouts_lookup by exact Hpost.
  unfold summary_slide. do 2 f_equal.
  unfold default_placeholders, set_default_text, default_text. simpl.
  by rewrite Htitle, Hsyn, Hsum.
Qed.

Lemma summary_scenario_witness :
  enforce_plan_rules
    (load_metadata
       {| raw_layouts := Some ([disclaimer] ++ conclusion "MUST HAVE" "Title: a synonym" None :: []) |})
    ∅
  = Some (<["slides" := VSlides [summary_slide]]> ∅).
Proof.
  apply (summary_scenario [disclaimer] [] "MUST HAVE" "Title: a synonym" None ∅);
    try reflexivity.
  - intros l Hl. apply list_elem_of_singleton in Hl as ->. reflexivity.
  - intros l Hl. by apply not_elem_of_nil in Hl.
Defined.

(** ** The content rule transformer *)

Example apply_content_rule_ex :
  apply_content_rule (Some "photo synthesis") "Title in ALL-CAPS" = "PHOTO SYNTHESIS"
  ∧ apply_content_rule (Some "photo synthesis") "Subtitle, Title Case" = "Photo Synthesis"
  ∧ apply_content_rule (Some "  photo synthesis ") "sentence case" = "Photo synthesis"
  ∧ apply_content_rule (Some "photo synthesis") "free text" = "photo synthesis"
  ∧ apply_content_rule None "all caps" = "".
Proof. repeat split; reflexivity. Qed.

Example clip_text_ex :
  clip_text "abcdef" (Some 3) = "abc" ∧ clip_text "abcdef" (Some 6) = "abcdef"
  ∧ clip_text "abcdef" (Some 0) = "abcdef" ∧ clip_text "abcdef" (Some (-2)) = "abcdef"
  ∧ clip_text "abcdef" None = "abcdef".
Proof. repeat split; reflexivity. Qed.

Lemma take_length (n : nat) (s : string) :
  (n ≤ String.length s)%nat → String.length (PyStr.take n s) = n.
Proof.
  revert s. induction n as [|n IH]; intros [|c r] Hn; simpl in *; [done|done|lia|].
  f_equal. apply IH. lia.
Qed.

Lemma take_prefix (n : nat) (s : string) : ∃ rest, s = PyStr.take n s +:+ rest.
Proof.
  revert s. induction n as [|n IH]; intros s.
  - exists s. by destruct s.
  - destruct s as [|c r]; [by exists ""|].
    destruct (IH r) as [rest Hrest]. exists rest. rewrite Hrest at 1. reflexivity.
Qed.


Lemma sentence_case_strips :
  PyStr.len "  ab  " = 6
  ∧ apply_content_rule (Some "  ab  ") "Sentence case" = "Ab"
  ∧ transform (Some "  ab  ") "Sentence case" (Some 3) = "Ab".
Proof. repeat split; reflexivity. Qed.




(** ** Substring tests and case maps *)

Lemma startswith_spec (p s : string) :
  PyStr.startswith p s = true ↔ ∃ rest, s = p +:+ rest.
Proof.
  revert s. induction p as [|a p IH]; intros s; simpl.
  - split; [intros _; by exists s|done].
  - destruct s as [|b s].
    + split; [done|]. intros [rest Hrest]. discriminate Hrest.
    + rewrite andb_true_iff, bool_decide_eq_true, IH. split.
      * intros [-> [rest ->]]. by exists rest.
      * intros [rest Hrest]. injection Hrest as -> ->. split; [done|by exists rest].
Qed.

Lemma contains_spec (needle hay : string) :
  PyStr.contains needle hay = true ↔ ∃ before after, hay = before +:+ needle +:+ after.
Proof.
  induction hay as [|c hay IH]; simpl.
  - rewrite orb_false_r, startswith_spec. split.
    + intros [rest ->]. by exists "", rest.
    + intros (before & after & H). destruct before; [by exists after|discriminate H].
  - rewrite orb_true_iff, startswith_spec, IH. split.
    + intros [[rest ->]|(before & after & ->)].
      * by exists "", rest.
      * by exists (String c before), after.
    + intros (before & after & H). destruct before as [|c' before].
      * left. by exists after.
      * right. injection H as -> ->. by exists before, after.
Qed.

Lemma map_chars_app (f : ascii → ascii) (s1 s2 : string) :
  PyStr.map_chars f (s1 +:+ s2) = PyStr.map_chars f s1 +:+ PyStr.map_chars f s2.
Proof.
  induction s1 as [|c s1 IH]; [done|].
  change (String (f c) (PyStr.map_chars f (s1 +:+ s2))
          = String (f c) (PyStr.map_chars f s1 +:+ PyStr.map_chars f s2)).
  by rewrite IH.
Qed.

(** A marker written in lower case that occurs in a description as it is
    also occurs in the lower-cased description. *)
Lemma contains_marked (marker desc : string) :
  PyStr.lower marker = marker →
  PyStr.contains marker desc = true → marked marker desc.
Proof.
  intros Hlow (before & after & ->)%contains_spec. apply contains_spec.
  exists (PyStr.lower before), (PyStr.lower after).
  unfold PyStr.lower in *. rewrite !map_chars_app. by rewrite Hlow.
Qed.

Lemma map_chars_length (f : ascii → ascii) (s : string) :
  String.length (PyStr.map_chars f s) = String.length s.
Proof. induction s as [|c s IH]; simpl; by rewrite ?IH. Qed.

Lemma title_go_length (b : bool) (s : string) :
  String.length (PyStr.title_go b s) = String.length s.
Proof. revert b. induction s as [|c s IH]; intros b; simpl; by rewrite ?IH. Qed.

(** Only the sentence case rule changes the length of a text. *)
Lemma apply_content_rule_length (T desc : string) :
  marked "all-caps" desc ∨ marked "all caps" desc ∨ marked "title case" desc
  ∨ ¬ marked "sentence case" desc →
  PyStr.len (apply_content_rule (Some T) desc) = PyStr.len T.
Proof.
  unfold marked, apply_content_rule, PyStr.len, PyStr.upper, PyStr.title. simpl.
  intros Hd. f_equal.
  destruct (PyStr.contains "all-caps" _); [apply map_chars_length|].
  destruct (PyStr.contains "all caps" _); [apply map_chars_length|]. simpl.
  destruct (PyStr.contains "title case" _); [apply title_go_length|].
  destruct (PyStr.contains "sentence case" _); [|done].
  by destruct Hd as [?|[?|[?|?]]].
Qed.

(** ** Casing precedence *)

(** C8: for every text and every content description that contains the
    all-caps marker ("all-caps" or "all caps") and the "title case" marker,
    [apply_content_rule] returns the upper-cased text. *)
Theorem all_caps_precedence (T desc : string) :
  marked "all-caps" desc ∨ marked "all caps" desc →
  marked "title case" desc →
  apply_content_rule (Some T) desc = PyStr.upper T.
Proof.
  unfold marked, apply_content_rule. intros [->| ->] _; simpl.
  - done.
  - by rewrite orb_true_r.
Qed.

Lemma all_caps_precedence_witness :
  apply_content_rule (Some "photo synthesis") "Title Case, or ALL CAPS"
  = PyStr.upper "photo synthesis".
Proof.
  apply (all_caps_precedence "photo synthesis" "Title Case, or ALL CAPS").
  - right. reflexivity.
  - reflexivity.
Defined.

Example all_caps_precedence_ex :
  apply_content_rule (Some "photo synthesis") "Title Case, or ALL CAPS" = "PHOTO SYNTHESIS"
  ∧ PyStr.title "photo synthesis" = "Photo Synthesis".
Proof. split; reflexivity. Qed.

(** ** The layout resolver *)

Example find_layout_ex :
  find_layout sample_template (Some " AGENDA ") = Some agenda_layout
  ∧ find_layout sample_template (Some "thank") = Some thanks_layout
  ∧ find_layout sample_template (Some "Summary") = Some blank_layout
  ∧ find_layout sample_template (Some "  ") = Some blank_layout
  ∧ find_layout sample_template None = Some blank_layout
  ∧ find_layout {| Pptx.slide_layouts := []; Pptx.slides := [] |} (Some "Agenda") = None.
Proof. repeat split; reflexivity. Qed.

Lemma first_match_Some {A} (p : A → bool) (ls : list A) (x : A) :
  first_match p ls = Some x ↔ first_with (λ y, p y = true) ls x.
Proof.
  unfold first_with. induction ls as [|l ls IH]; simpl.
  - split; [done|]. intros (pre & post & H & _). by destruct pre.
  - destruct (p l) eqn:Hp.
    + split.
      * intros [= <-]. exists [], ls. split; [done|]. split; [done|].
        intros y Hy. by apply not_elem_of_nil in Hy.
      * intros (pre & post & H & Hx & Hpre). destruct pre as [|y pre].
        -- by injection H as -> _.
        -- injection H as -> _. exfalso. apply (Hpre y); [left|done].
    + rewrite IH. split.
      * intros (pre & post & -> & Hx & Hpre). exists (l :: pre), post.
        split; [done|]. split; [done|].
        intros y [->|Hy]%elem_of_cons; [by rewrite Hp|by apply Hpre].
      * intros (pre & post & H & Hx & Hpre). destruct pre as [|y pre].
        -- injection H as -> _. by rewrite Hp in Hx.
        -- injection H as -> ->. exists pre, post. split; [done|]. split; [done|].
           intros z Hz. apply Hpre. by right.
Qed.

Lemma first_match_None {A} (p : A → bool) (ls : list A) :
  first_match p ls = None ↔ ∀ y, y ∈ ls → p y = false.
Proof.
  induction ls as [|l ls IH]; simpl.
  - split; [|done]. intros _ y Hy. by apply not_elem_of_nil in Hy.
  - destruct (p l) eqn:Hp.
    + split; [done|]. intros H. rewrite (H l) in Hp; [done|left].
    + rewrite IH. split.
      * intros H y [->|Hy]%elem_of_cons; [done|by apply H].
      * intros H y Hy. apply H. by right.
Qed.

Lemma first_with_iff {A} (P Q : A → Prop) (l : list A) (x : A) :
  (∀ y, P y ↔ Q y) → first_with P l x → first_with Q l x.
Proof.
  intros HPQ (pre & post & Hl & Hx & Hpre). exists pre, post.
  split; [done|]. split; [by apply HPQ|]. intros y Hy HQ. apply (Hpre y Hy). by apply HPQ.
Qed.

Lemma find_layout_is_Some (prs : Pptx.Presentation) (requested : option string) :
  Pptx.slide_layouts prs ≠ [] → is_Some (find_layout prs requested).
Proof.
  intros Hne. unfold find_layout.
  destruct (first_match _ _); [by eexists|].
  destruct (first_match _ _); [by eexists|].
  destruct (Pptx.slide_layouts prs); [done|by eexists].
Qed.

(** C6: on a template with at least one layout [find_layout] returns a
    layout: the first whose normalized name equals the normalized requested
    name; else, when that requested name is not empty, the first whose
    normalized name contains it; else the first declared layout. *)
Theorem find_layout_order (prs : Pptx.Presentation) (requested : option string) :
  Pptx.slide_layouts prs ≠ [] →
  ∃ l, find_layout prs requested = Some l
    ∧ let target := PyStr.normalize (PyStr.or_empty requested) in
      let exact l := layout_key l = target in
      let relaxed l := PyStr.contains target (layout_key l) = true in
      let layouts := Pptx.slide_layouts prs in
      first_with exact layouts l
      ∨ ((∀ l', l' ∈ layouts → ¬ exact l') ∧ target ≠ ""
         ∧ first_with relaxed layouts l)
      ∨ ((∀ l', l' ∈ layouts → ¬ exact l')
         ∧ (target = "" ∨ ∀ l', l' ∈ layouts → ¬ relaxed l')
         ∧ head layouts = Some l).
Proof.
  intros Hne. unfold find_layout.
  set (target := PyStr.normalize (PyStr.or_empty requested)).
  destruct (first_match (λ l, bool_decide (layout_key l = target)) _) as [l|] eqn:Hexact.
  { exists l. split; [done|]. left. apply first_match_Some in Hexact.
    revert Hexact. apply first_with_iff. intros y. apply bool_decide_eq_true. }
  assert (Hnoexact : ∀ l', l' ∈ Pptx.slide_layouts prs → layout_key l' ≠ target).
  { intros l' Hl'. rewrite first_match_None in Hexact.
    specialize (Hexact l' Hl'). by apply bool_decide_eq_false in Hexact. }
  destruct (first_match (λ l, PyStr.truthy target && _) _) as [l|] eqn:Hrelaxed.
  { exists l. split; [done|]. right. left. apply first_match_Some in Hrelaxed.
    split; [done|]. split.
    - destruct Hrelaxed as (_ & _ & _ & Hl & _). intros Ht. by rewrite Ht in Hl.
    - destruct (PyStr.truthy target) eqn:Ht.
      + revert Hrelaxed. apply first_with_iff. intros y. by rewrite andb_true_l.
      + by destruct Hrelaxed as (_ & _ & _ & Hl & _). }
  destruct (Pptx.slide_layouts prs) as [|l0 layouts] eqn:Hlayouts; [done|].
  exists l0. split; [done|]. right. right. split; [done|]. split; [|done].
  rewrite first_match_None in Hrelaxed.
  destruct (PyStr.truthy target) eqn:Ht.
  - right. intros l' Hl' Hc. specialize (Hrelaxed l' Hl'). simpl in Hrelaxed. congruence.
  - left. by destruct target.
Qed.

Lemma find_layout_order_witness :
  ∃ l, find_layout sample_template (Some "thank") = Some l
    ∧ let target := PyStr.normalize (PyStr.or_empty (Some "thank")) in
      let exact l := layout_key l = target in
      let relaxed l := PyStr.contains target (layout_key l) = true in
      let layouts := Pptx.slide_layouts sample_template in
      first_with exact layouts l
      ∨ ((∀ l', l' ∈ layouts → ¬ exact l') ∧ target ≠ ""
         ∧ first_with relaxed layouts l)
      ∨ ((∀ l', l' ∈ layouts → ¬ exact l')
         ∧ (target = "" ∨ ∀ l', l' ∈ layouts → ¬ relaxed l')
         ∧ head layouts = Some l).
Proof. apply (find_layout_order sample_template (Some "thank")). discriminate. Defined.

(** ** The deck builder *)

Lemma py_index_last {A} (l : list A) :
  py_index l (Z.of_nat (length l) - 1) = last l.
Proof.
  unfold py_index. rewrite last_lookup. destruct l as [|x l]; [done|].
  cbn [length]. destruct (Z.leb_spec 0 (Z.of_nat (S (length l)) - 1)); [|lia].
  destruct (Z.ltb_spec (Z.of_nat (S (length l)) - 1) (Z.of_nat (S (length l)))); [|lia].
  simpl andb. cbv iota. f_equal. lia.
Qed.

Lemma build_slides_app (M : Metadata) (specs : list SlideSpec) (prs : Pptx.Presentation) :
  Pptx.slide_layouts prs ≠ [] →
  ∃ added,
    build_slides M prs specs
    = Some {| Pptx.slide_layouts := Pptx.slide_layouts prs;
              Pptx.slides := Pptx.slides prs ++ added |}
    ∧ Forall2 (compiled_from M prs) (filter (λ s, has_layout_name s) specs) added.
Proof.
  intros Hne. revert prs Hne. induction specs as [|spec specs IH]; intros prs Hne.
  - exists []. split; [|constructor]. simpl. rewrite app_nil_r. by destruct prs.
  - assert (Hskip : has_layout_name spec = false → build_slide M prs spec = Some prs).
    { unfold has_layout_name, build_slide. destruct (layout_name spec) as [name|]; [|done].
      by intros ->. }
    destruct (has_layout_name spec) eqn:Hnamed.
    + unfold has_layout_name in Hnamed.
      destruct (layout_name spec) as [name|] eqn:Hname; [|done].
      destruct (find_layout_is_Some prs (Some name) Hne) as (layout & Hfind).
      set (slide := fill_placeholders M (Pptx.new_slide layout) name
                      (default ∅ (placeholders spec))).
      destruct (IH (Pptx.add_slide prs slide) Hne) as (added & Hbuild & Hall).
      exists (slide :: added). split.
      * simpl. unfold build_slide. rewrite Hname, Hnamed, Hfind. simpl.
        fold slide. rewrite Hbuild. simpl. by rewrite <- app_assoc.
      * rewrite filter_cons_True by (unfold has_layout_name; by rewrite Hname, Hnamed).
        constructor; [by exists name, layout|done].
    + destruct (IH prs Hne) as (added & Hbuild & Hall). exists added. split.
      * simpl. rewrite (Hskip eq_refl). simpl. exact Hbuild.
      * rewrite filter_cons_False by (intros H; by rewrite Hnamed in H). done.
Qed.

Example build_ex :
  build_pptx_from_plan plain_markers sample_template
    (plan_of [ {| layout_name := Some "agenda";
                  placeholders := Some {[ "10" := "photo synthesis, the long story";
                                          "11" := "  how plants eat light";
                                          "99" := "dropped" ]} |} ])
  = Some {| Pptx.slide_layouts := [blank_layout; agenda_layout; thanks_layout];
            Pptx.slides :=
              [ {| Pptx.slide_layout := agenda_layout;
                   Pptx.placeholders :=
                     [ {| Pptx.idx := 10; Pptx.has_text_frame := true;
                          Pptx.text := "PHOTO SYNTHESIS, THE" |};
                       {| Pptx.idx := 11; Pptx.has_text_frame := true;
                          Pptx.text := "How plants eat light" |} ] |};
                Pptx.new_slide thanks_layout ] |}.
Proof. reflexivity. Qed.

Lemma unnamed_slide_enforced_and_built :
  enforce_plan_rules plain_markers (plan_of [unnamed_slide])
  = Some (plan_of [unnamed_slide; synthesize plain_markers "Agenda"])
  ∧ ∃ agenda_slide,
      build_pptx_from_plan plain_markers sample_template
        (plan_of [unnamed_slide; synthesize plain_markers "Agenda"])
      = Some {| Pptx.slide_layouts := Pptx.slide_layouts sample_template;
                Pptx.slides := [agenda_slide; Pptx.new_slide thanks_layout] |}.
Proof. split; [reflexivity|]. eexists. reflexivity. Qed.

(** C3, as stated, fails: the builder skips a slide spec whose layout name
    is missing or empty, so an enforced plan of two specs, one of them
    unnamed, compiles to two slides, not three. *)
Lemma one_slide_per_spec_fails :
  ¬ (∀ (M : Metadata) (template deck : Pptx.Presentation) (plan plan' : Plan)
       (specs : list SlideSpec),
       Pptx.slide_layouts template ≠ [] →
       Pptx.slides template = [] →
       enforce_plan_rules M plan = Some plan' →
       plan_slides plan' = Some specs →
       build_pptx_from_plan M template plan' = Some deck →
       length (Pptx.slides deck) = S (length specs)).
Proof.
  intros H. destruct unnamed_slide_enforced_and_built as [Henf [agenda_slide Hbuild]].
  specialize (H plain_markers sample_template _ (plan_of [unnamed_slide]) _
                [unnamed_slide; synthesize plain_markers "Agenda"]
                ltac:(discriminate) eq_refl Henf eq_refl Hbuild).
  discriminate H.
Qed.

(** C3 (amended): on a template with at least one layout the builder
    returns a deck: the slides of the opened template, then, in order, one
    slide per slide spec of the plan whose layout name is present and not
    empty, made from the layout that the resolver returns for that name, then
    exactly one closing slide made from the last declared layout of the
    template with no placeholder text applied. A spec whose layout name is
    missing or empty adds no slide, so the builder adds one slide more than the
    plan has named specs. *)
Theorem compiled_deck
    (M : Metadata) (template : Pptx.Presentation) (plan : Plan) (specs : list SlideSpec) :
  Pptx.slide_layouts template ≠ [] →
  plan_slides plan = Some specs →
  ∃ deck added closing,
    build_pptx_from_plan M template plan = Some deck
    ∧ Pptx.slide_layouts deck = Pptx.slide_layouts template
    ∧ Pptx.slides deck = Pptx.slides template ++ added ++ [Pptx.new_slide closing]
    ∧ Forall2 (compiled_from M template) (filter (λ s, has_layout_name s) specs) added
    ∧ last (Pptx.slide_layouts template) = Some closing
    ∧ length (Pptx.slides deck)
      = (length (Pptx.slides template)
         + length (filter (λ s, has_layout_name s) specs) + 1)%nat.
Proof.
  intros Hne Hplan.
  destruct (build_slides_app M specs template Hne) as (added & Hbuild & Hall).
  destruct (last (Pptx.slide_layouts template)) as [closing|] eqn:Hlast.
  2: { apply last_None in Hlast. done. }
  exists {| Pptx.slide_layouts := Pptx.slide_layouts template;
            Pptx.slides := (Pptx.slides template ++ added) ++ [Pptx.new_slide closing] |},
         added, closing.
  split; [|split; [done|split; [by rewrite <- app_assoc|split; [done|split; [done|]]]]].
  - unfold build_pptx_from_plan. rewrite Hplan. simpl. rewrite Hbuild. simpl.
    unfold add_thank_you_slide. simpl. by rewrite py_index_last, Hlast.
  - simpl. rewrite !length_app, (Forall2_length _ _ _ Hall). simpl. lia.
Qed.

Lemma compiled_deck_witness :
  ∃ deck added closing,
    build_pptx_from_plan plain_markers sample_template
      (plan_of [unnamed_slide; slide_of "Agenda"]) = Some deck
    ∧ Pptx.slide_layouts deck = Pptx.slide_layouts sample_template
    ∧ Pptx.slides deck = Pptx.slides sample_template ++ added ++ [Pptx.new_slide closing]
    ∧ Forall2 (compiled_from plain_markers sample_template)
        (filter (λ s, has_layout_name s) [unnamed_slide; slide_of "Agenda"]) added
    ∧ last (Pptx.slide_layouts sample_template) = Some closing
    ∧ length (Pptx.slides deck)
      = (length (Pptx.slides sample_template)
         + length (filter (λ s, has_layout_name s) [unnamed_slide; slide_of "Agenda"])
         + 1)%nat.
Proof.
  apply (compiled_deck plain_markers sample_template
           (plan_of [unnamed_slide; slide_of "Agenda"]) [unnamed_slide; slide_of "Agenda"]).
  - discriminate.
  - reflexivity.
Defined.

(** * Further properties of the program *)

(** ** Characters and white space *)

Lemma upper_char_idem (c : ascii) : PyStr.upper_char (PyStr.upper_char c) = PyStr.upper_char c.
Proof. destruct c as [[] [] [] [] [] [] [] []]; reflexivity. Qed.




Lemma is_space_upper_char (c : ascii) : PyStr.is_space (PyStr.upper_char c) = PyStr.is_space c.
Proof. destruct c as [[] [] [] [] [] [] [] []]; reflexivity. Qed.



Lemma rstrip_idem (s : string) : PyStr.rstrip (PyStr.rstrip s) = PyStr.rstrip s.
Proof.
  induction s as [|c s IH]; [done|]. simpl.
  destruct (PyStr.rstrip s) as [|c' s'] eqn:Hs.
  - destruct (PyStr.is_space c) eqn:Hc; [done|]. simpl. by rewrite Hc.
  - simpl. simpl in IH. by rewrite IH.
Qed.

Lemma rstrip_cons (c : ascii) (s : string) :
  PyStr.is_space c = false → PyStr.rstrip (String c s) = String c (PyStr.rstrip s).
Proof. intros Hc. simpl. destruct (PyStr.rstrip s); by rewrite ?Hc. Qed.

(** A stripped text is empty or starts with a character that is no white
    space, with a right-stripped rest. *)
Lemma strip_cases (s : string) :
  PyStr.strip s = ""
  ∨ ∃ c r, PyStr.is_space c = false ∧ PyStr.strip s = String c (PyStr.rstrip r).
Proof.
  unfold PyStr.strip. induction s as [|c s IH]; [by left|]. simpl.
  destruct (PyStr.is_space c) eqn:Hc; [exact IH|].
  right. exists c, s. split; [done|]. by apply rstrip_cons.
Qed.

Lemma strip_stripped (c : ascii) (r : string) :
  PyStr.is_space c = false →
  PyStr.strip (String c (PyStr.rstrip r)) = String c (PyStr.rstrip r).
Proof.
  intros Hc. unfold PyStr.strip. simpl PyStr.lstrip. rewrite Hc.
  by rewrite rstrip_cons, rstrip_idem.
Qed.

Lemma strip_idem (s : string) : PyStr.strip (PyStr.strip s) = PyStr.strip s.
Proof.
  destruct (strip_cases s) as [->|(c & r & Hc & ->)]; [done|]. by apply strip_stripped.
Qed.

(** ** The casing rules, applied twice and applied to nothing *)

Lemma sentence_case_cons (c : ascii) (r : string) :
  PyStr.is_space c = false →
  PyStr.strip (String c r) = String c (PyStr.rstrip r).
Proof.
  intros Hc. unfold PyStr.strip. simpl PyStr.lstrip. rewrite Hc. by apply rstrip_cons.
Qed.

Lemma sentence_case_cases (s : string) :
  (PyStr.strip s = "" ∧ sentence_case s = "")
  ∨ ∃ c r, PyStr.is_space c = false
           ∧ PyStr.strip s = String c (PyStr.rstrip r)
           ∧ sentence_case s = String (PyStr.upper_char c) (PyStr.rstrip r).
Proof.
  unfold sentence_case.
  destruct (strip_cases s) as [->|(c & r & Hc & ->)]; [by left|].
  right. by exists c, r.
Qed.

Lemma sentence_case_stripped (s : string) :
  PyStr.strip (sentence_case s) = sentence_case s.
Proof.
  destruct (sentence_case_cases s) as [[_ ->]|(c & r & Hc & _ & ->)]; [done|].
  apply strip_stripped. by rewrite is_space_upper_char.
Qed.

Lemma sentence_case_idem (s : string) :
  sentence_case (sentence_case s) = sentence_case s.
Proof.
  destruct (sentence_case_cases s) as [[_ ->]|(c & r & Hc & _ & ->)]; [done|].
  unfold sentence_case.
  rewrite strip_stripped by (by rewrite is_space_upper_char).
  simpl. unfold PyStr.upper. simpl. by rewrite upper_char_idem.
Qed.

(** X1: [sentence_case] returns a text without white space at either end,
    and a text in sentence case is returned as it is. *)
Theorem sentence_case_normal_form (s : string) :
  PyStr.strip (sentence_case s) = sentence_case s
  ∧ sentence_case (sentence_case s) = sentence_case s.
Proof. split; [apply sentence_case_stripped|apply sentence_case_idem]. Qed.

(** X2: an absent text is cased as the empty text, and the empty text stays
    empty under every content description. *)
Theorem apply_content_rule_absent (rule_desc : string) :
  apply_content_rule None rule_desc = ""
  ∧ apply_content_rule (Some "") rule_desc = "".
Proof.
  unfold apply_content_rule. simpl PyStr.or_empty.
  destruct (PyStr.contains "all-caps" _ || PyStr.contains "all caps" _); [done|].
  destruct (PyStr.contains "title case" _); [done|].
  by destruct (PyStr.contains "sentence case" _).
Qed.


(** ** The clip *)

Lemma take_all (n : nat) (s : string) :
  (String.length s ≤ n)%nat → PyStr.take n s = s.
Proof.
  revert s. induction n as [|n IH]; intros [|c r] Hn; simpl in *; [done|lia|done|].
  f_equal. apply IH. lia.
Qed.

(** X4: [clip_text] returns a prefix of the text: the first [max_chars]
    characters when [max_chars] is positive and the text is longer, the whole
    text otherwise, also when [max_chars] is [None], zero or negative. *)
Theorem clip_text_prefix (text : string) (max_chars : option Z) :
  (∃ rest, text = clip_text text max_chars +:+ rest)
  ∧ PyStr.len (clip_text text max_chars)
    = match max_chars with
      | Some n => if 0 <? n then Z.min (PyStr.len text) n else PyStr.len text
      | None => PyStr.len text
      end.
Proof.
  assert (Hid : ∃ rest, text = text +:+ rest).
  { exists "". induction text as [|c text IH]; [done|].
    change (String c text = String c (text +:+ "")). by rewrite <- IH. }
  destruct max_chars as [n|]; [|done]. unfold clip_text, PyStr.len.
  destruct (Z.eqb_spec n 0) as [->|Hn0]; [done|].
  destruct (Z.ltb_spec 0 n) as [Hpos|Hneg]; [|done].
  destruct (Z.ltb_spec n (Z.of_nat (String.length text))) as [Hlt|Hge]; simpl.
  - split; [apply take_prefix|]. rewrite take_length by lia. lia.
  - split; [done|]. lia.
Qed.

(** ** More on the layout resolver *)

Lemma first_match_elem_of {A} (p : A → bool) (ls : list A) (x : A) :
  first_match p ls = Some x → x ∈ ls.
Proof.
  intros (pre & post & -> & _)%first_match_Some.
  apply elem_of_app. right. apply list_elem_of_here.
Qed.

Lemma py_index_head {A} (x : A) (l : list A) : py_index (x :: l) 0 = Some x.
Proof. reflexivity. Qed.

(** X5: [find_layout] never makes up a layout: what it returns is one of the
    layouts of the template. *)
Theorem find_layout_elem_of
    (prs : Pptx.Presentation) (requested : option string) (l : Pptx.SlideLayout) :
  find_layout prs requested = Some l → l ∈ Pptx.slide_layouts prs.
Proof.
  unfold find_layout.
  destruct (first_match (λ l, bool_decide _) _) as [l1|] eqn:H1.
  { intros [= <-]. by apply first_match_elem_of in H1. }
  destruct (first_match (λ l, PyStr.truthy _ && _) _) as [l2|] eqn:H2.
  { intros [= <-]. by apply first_match_elem_of in H2. }
  destruct (Pptx.slide_layouts prs) as [|l0 ls]; [done|].
  rewrite py_index_head. intros Heq. simplify_eq. apply list_elem_of_here.
Qed.

Lemma find_layout_elem_of_witness : agenda_layout ∈ Pptx.slide_layouts sample_template.
Proof. apply (find_layout_elem_of sample_template (Some " AGENDA ")). reflexivity. Defined.

(** X6: [find_layout] raises (the index error of [slide_layouts[0]]) exactly
    when the template has no layouts, whatever name is requested. *)
Theorem find_layout_fails_iff (prs : Pptx.Presentation) (requested : option string) :
  find_layout prs requested = None ↔ Pptx.slide_layouts prs = [].
Proof.
  split.
  - intros Hnone. destruct (Pptx.slide_layouts prs) as [|l ls] eqn:Hls; [done|].
    destruct (find_layout_is_Some prs requested) as [l' Hl']; [by rewrite Hls|].
    by rewrite Hl' in Hnone.
  - intros Hls. unfold find_layout. by rewrite Hls.
Qed.

(** ** Filling the placeholders of a slide *)

Lemma fill_shape_idx (rules : gmap Z PlaceholderRule) (items : gmap string string)
    (shp : Pptx.Shape) :
  Pptx.idx (fill_shape rules items shp) = Pptx.idx shp
  ∧ Pptx.has_text_frame (fill_shape rules items shp) = Pptx.has_text_frame shp.
Proof.
  unfold fill_shape. destruct (items !! _); [|done].
  by destruct (Pptx.has_text_frame shp) eqn:Htf.
Qed.

Lemma fill_shape_skip (rules : gmap Z PlaceholderRule) (items : gmap string string)
    (shp : Pptx.Shape) :
  items !! pretty (Pptx.idx shp) = None ∨ Pptx.has_text_frame shp = false →
  fill_shape rules items shp = shp.
Proof.
  unfold fill_shape. intros [-> | ->]; [done|]. by destruct (items !! _).
Qed.

Lemma fill_shape_text (rules : gmap Z PlaceholderRule) (items : gmap string string)
    (shp : Pptx.Shape) (text : string) :
  items !! pretty (Pptx.idx shp) = Some text →
  Pptx.has_text_frame shp = true →
  Pptx.text (fill_shape rules items shp)
  = transform (Some text)
      (default "" (rules !! Pptx.idx shp ≫= ph_content_description))
      (rules !! Pptx.idx shp ≫= ph_maxchars).
Proof. unfold fill_shape. by intros -> ->. Qed.

Lemma fill_placeholders_lookup (M : Metadata) (slide : Pptx.Slide) (layout_name : string)
    (items : gmap string string) (i : nat) :
  Pptx.placeholders (fill_placeholders M slide layout_name items) !! i
  = fill_shape (rule_by_pid M layout_name) items <$> Pptx.placeholders slide !! i.
Proof. apply list_lookup_fmap. Qed.

(** X7: filling keeps the slide's layout and the placeholders themselves:
    the same number of shapes, with the same indexes and text frames, in the
    same order; only texts change. *)
Theorem fill_placeholders_frame (M : Metadata) (slide : Pptx.Slide) (layout_name : string)
    (items : gmap string string) :
  let filled := fill_placeholders M slide layout_name items in
  Pptx.slide_layout filled = Pptx.slide_layout slide
  ∧ length (Pptx.placeholders filled) = length (Pptx.placeholders slide)
  ∧ Pptx.idx <$> Pptx.placeholders filled = Pptx.idx <$> Pptx.placeholders slide
  ∧ Pptx.has_text_frame <$> Pptx.placeholders filled
    = Pptx.has_text_frame <$> Pptx.placeholders slide.
Proof.
  simpl. split; [done|]. split; [apply length_fmap|].
  rewrite <- !list_fmap_compose.
  split; apply list_fmap_ext; intros i shp _; simpl; apply fill_shape_idx.
Qed.

(** X8: a placeholder whose index, as a decimal string, is no key of the
    items, or that has no text frame, is left exactly as it was. *)
Theorem fill_placeholders_untouched (M : Metadata) (slide : Pptx.Slide)
    (layout_name : string) (items : gmap string string) (i : nat) (shp : Pptx.Shape) :
  Pptx.placeholders slide !! i = Some shp →
  items !! pretty (Pptx.idx shp) = None ∨ Pptx.has_text_frame shp = false →
  Pptx.placeholders (fill_placeholders M slide layout_name items) !! i = Some shp.
Proof.
  intros Hi Hskip. rewrite fill_placeholders_lookup, Hi. simpl.
  by rewrite fill_shape_skip.
Qed.

(** X9: an item whose key is the index of no placeholder of the slide has
    no effect at all. *)
Theorem fill_placeholders_unknown_key (M : Metadata) (slide : Pptx.Slide)
    (layout_name : string) (items : gmap string string) (k v : string) :
  (∀ shp, shp ∈ Pptx.placeholders slide → pretty (Pptx.idx shp) ≠ k) →
  fill_placeholders M slide layout_name (<[k := v]> items)
  = fill_placeholders M slide layout_name items.
Proof.
  intros Hk. unfold fill_placeholders. f_equal.
  apply list_fmap_ext. intros i shp Hi. unfold fill_shape.
  rewrite lookup_insert_ne; [done|].
  intros Heq. apply (Hk shp); [by eapply list_elem_of_lookup_2|done].
Qed.

Lemma rules_loop_snoc (rules : list PlaceholderRule) (ph : PlaceholderRule) :
  foldl (λ acc ph, <[ph_id ph := ph]> acc) (∅ : gmap Z PlaceholderRule) (rules ++ [ph])
  = <[ph_id ph := ph]> (foldl (λ acc ph, <[ph_id ph := ph]> acc) ∅ rules).
Proof. by rewrite foldl_snoc. Qed.

Lemma rules_loop_app_lookup (pre post : list PlaceholderRule) (id : Z) :
  (∀ ph', ph' ∈ post → ph_id ph' ≠ id) →
  foldl (λ acc ph, <[ph_id ph := ph]> acc) (∅ : gmap Z PlaceholderRule) (pre ++ post) !! id
  = foldl (λ acc ph, <[ph_id ph := ph]> acc) (∅ : gmap Z PlaceholderRule) pre !! id.
Proof.
  induction post as [|ph' post IH] using rev_ind; intros Hpost.
  - by rewrite app_nil_r.
  - rewrite app_assoc, rules_loop_snoc, lookup_insert_ne.
    + apply IH. intros q Hq. apply Hpost, elem_of_app. by left.
    + apply Hpost, elem_of_app. right. apply list_elem_of_here.
Qed.

(** In [rule_by_pid] the last rule of an id is the one that counts. *)
Lemma rule_by_pid_lookup (M : Metadata) (layout_name : string) (layout : LayoutDescriptor)
    (pre post : list PlaceholderRule) (ph : PlaceholderRule) :
  layouts_by_name M !! PyStr.normalize layout_name = Some layout →
  default [] (ld_placeholders layout) = pre ++ ph :: post →
  (∀ ph', ph' ∈ post → ph_id ph' ≠ ph_id ph) →
  rule_by_pid M layout_name !! ph_id ph = Some ph.
Proof.
  intros Hlayout Hrules Hpost. unfold rule_by_pid. rewrite Hlayout, Hrules.
  rewrite (app_assoc pre [ph] post : pre ++ ph :: post = _).
  rewrite rules_loop_app_lookup by done.
  rewrite rules_loop_snoc. apply lookup_insert_eq.
Qed.

Lemma rule_by_pid_unknown (M : Metadata) (layout_name : string) :
  layouts_by_name M !! PyStr.normalize layout_name = None →
  rule_by_pid M layout_name = ∅.
Proof. intros Hnone. unfold rule_by_pid. by rewrite Hnone. Qed.

Lemma clip_text_le (text : string) (n : Z) :
  0 < n → PyStr.len (clip_text text (Some n)) ≤ n.
Proof.
  intros Hpos. unfold clip_text, PyStr.len.
  destruct (Z.eqb_spec n 0) as [->|Hn0]; [lia|].
  destruct (Z.ltb_spec 0 n) as [_|Hneg]; [|lia].
  destruct (Z.ltb_spec n (Z.of_nat (String.length text))) as [Hlt|Hge]; simpl; [|lia].
  rewrite take_length by lia. lia.
Qed.

(** X10: a text written into a placeholder respects the [maxchars] of its
    rule: when the metadata indexes a layout under the stated name and the last
    rule of that layout for the placeholder's index has a positive [maxchars],
    the text set from the items is the cased text clipped to it, and is never
    longer. *)
Theorem fill_placeholders_maxchars
    (M : Metadata) (slide : Pptx.Slide) (layout_name : string) (items : gmap string string)
    (layout : LayoutDescriptor) (pre post : list PlaceholderRule) (ph : PlaceholderRule)
    (n : Z) (i : nat) (shp : Pptx.Shape) (text : string) :
  layouts_by_name M !! PyStr.normalize layout_name = Some layout →
  default [] (ld_placeholders layout) = pre ++ ph :: post →
  (∀ ph', ph' ∈ post → ph_id ph' ≠ ph_id ph) →
  ph_maxchars ph = Some n → 0 < n →
  Pptx.placeholders slide !! i = Some shp →
  Pptx.idx shp = ph_id ph →
  Pptx.has_text_frame shp = true →
  items !! pretty (Pptx.idx shp) = Some text →
  ∃ shp', Pptx.placeholders (fill_placeholders M slide layout_name items) !! i = Some shp'
    ∧ Pptx.text shp'
      = clip_text (apply_content_rule (Some text) (default "" (ph_content_description ph)))
                  (Some n)
    ∧ PyStr.len (Pptx.text shp') ≤ n.
Proof.
  intros Hlayout Hrules Hpost Hmax Hpos Hi Hidx Htf Hitem.
  pose proof (rule_by_pid_lookup M layout_name layout pre post ph Hlayout Hrules Hpost)
    as Hrule.
  eexists. rewrite fill_placeholders_lookup, Hi. split; [done|].
  rewrite (fill_shape_text _ _ _ _ Hitem Htf), Hidx, Hrule. simpl. rewrite Hmax.
  split; [done|]. by apply clip_text_le.
Qed.

Lemma fill_placeholders_maxchars_witness :
  ∃ shp',
    Pptx.placeholders
      (fill_placeholders plain_markers (Pptx.new_slide agenda_layout) " AGENDA"
         {[ "10" := "photo synthesis, the long story" ]}) !! 0%nat = Some shp'
    ∧ Pptx.text shp'
      = clip_text (apply_content_rule (Some "photo synthesis, the long story")
                     (default "" (Some "Title in ALL-CAPS")))
                  (Some 20)
    ∧ PyStr.len (Pptx.text shp') ≤ 20.
Proof.
  apply (fill_placeholders_maxchars plain_markers (Pptx.new_slide agenda_layout) " AGENDA"
           {[ "10" := "photo synthesis, the long story" ]} agenda []
           [ {| ph_id := 11; ph_content_description := Some "Body, sentence case";
                ph_maxchars := None |} ]
           {| ph_id := 10; ph_content_description := Some "Title in ALL-CAPS";
              ph_maxchars := Some 20 |}
           20 0%nat title_shape "photo synthesis, the long story");
    try reflexivity.
  intros ph' Hph'. apply list_elem_of_singleton in Hph' as ->. discriminate.
Defined.

(** X11: under a layout name that the metadata does not index no rule
    applies: the text of an item is written as it is, neither cased nor
    clipped. *)
Theorem fill_placeholders_unknown_layout
    (M : Metadata) (slide : Pptx.Slide) (layout_name : string) (items : gmap string string)
    (i : nat) (shp : Pptx.Shape) (text : string) :
  layouts_by_name M !! PyStr.normalize layout_name = None →
  Pptx.placeholders slide !! i = Some shp →
  Pptx.has_text_frame shp = true →
  items !! pretty (Pptx.idx shp) = Some text →
  Pptx.placeholders (fill_placeholders M slide layout_name items) !! i
  = Some {| Pptx.idx := Pptx.idx shp; Pptx.has_text_frame := true; Pptx.text := text |}.
Proof.
  intros Hnone Hi Htf Hitem. rewrite fill_placeholders_lookup, Hi. simpl.
  unfold fill_shape. by rewrite Hitem, Htf, (rule_by_pid_unknown _ _ Hnone), lookup_empty.
Qed.

Lemma fill_placeholders_unknown_layout_witness :
  Pptx.placeholders
    (fill_placeholders plain_markers (Pptx.new_slide agenda_layout) "Overview"
       {[ "11" := "  how plants eat light  " ]}) !! 1%nat
  = Some {| Pptx.idx := Pptx.idx body_shape; Pptx.has_text_frame := true;
            Pptx.text := "  how plants eat light  " |}.
Proof.
  apply (fill_placeholders_unknown_layout plain_markers (Pptx.new_slide agenda_layout)
           "Overview" {[ "11" := "  how plants eat light  " ]} 1%nat body_shape
           "  how plants eat light  "); reflexivity.
Defined.

Lemma fill_placeholders_untouched_witness :
  Pptx.placeholders
    (fill_placeholders plain_markers (Pptx.new_slide agenda_layout) "Agenda"
       {[ "10" := "photo synthesis" ]}) !! 1%nat
  = Some body_shape.
Proof.
  apply (fill_placeholders_untouched plain_markers (Pptx.new_slide agenda_layout) "Agenda"
           {[ "10" := "photo synthesis" ]} 1%nat body_shape); [reflexivity|].
  left. reflexivity.
Defined.

Lemma fill_placeholders_unknown_key_witness :
  fill_placeholders plain_markers (Pptx.new_slide agenda_layout) "Agenda"
    (<["99" := "dropped"]> {[ "10" := "photo synthesis" ]})
  = fill_placeholders plain_markers (Pptx.new_slide agenda_layout) "Agenda"
      {[ "10" := "photo synthesis" ]}.
Proof.
  apply (fill_placeholders_unknown_key plain_markers (Pptx.new_slide agenda_layout) "Agenda"
           {[ "10" := "photo synthesis" ]} "99" "dropped").
  intros shp Hshp. simpl in Hshp.
  apply elem_of_cons in Hshp as [->|Hshp]; [discriminate|].
  apply list_elem_of_singleton in Hshp as ->. discriminate.
Defined.

(** ** The deck builder on a template without layouts *)

Lemma build_slide_unnamed (M : Metadata) (prs : Pptx.Presentation) (spec : SlideSpec) :
  has_layout_name spec = false → build_slide M prs spec = Some prs.
Proof.
  unfold has_layout_name, build_slide. destruct (layout_name spec) as [name|]; [|done].
  by intros ->.
Qed.

Lemma build_slide_no_layouts (M : Metadata) (prs : Pptx.Presentation) (spec : SlideSpec) :
  Pptx.slide_layouts prs = [] → has_layout_name spec = true →
  build_slide M prs spec = None.
Proof.
  unfold has_layout_name, build_slide. intros Hnone.
  destruct (layout_name spec) as [name|]; [|done]. intros ->. simpl.
  unfold find_layout. by rewrite Hnone.
Qed.

Lemma build_slides_no_layouts (M : Metadata) (prs : Pptx.Presentation)
    (specs : list SlideSpec) :
  Pptx.slide_layouts prs = [] →
  (Exists (λ s, has_layout_name s) specs → build_slides M prs specs = None)
  ∧ (Forall (λ s, ¬ has_layout_name s) specs → build_slides M prs specs = Some prs).
Proof.
  intros Hnone. induction specs as [|spec specs [IHex IHall]]; simpl.
  - split; [by intros ?%Exists_nil|done].
  - destruct (has_layout_name spec) eqn:Hnamed.
    + rewrite build_slide_no_layouts by done. split; [done|].
      intros [H _]%Forall_cons. by rewrite Hnamed in H.
    + rewrite build_slide_unnamed by done. simpl. split.
      * intros [H|H]%Exists_cons; [by rewrite Hnamed in H|by apply IHex].
      * intros [_ H]%Forall_cons. by apply IHall.
Qed.

(** X12: on a template without layouts the builder fails as soon as one
    slide spec has a non-empty layout name, because the error of [find_layout]
    is not caught; when no spec has one, it returns the deck as opened, without
    a closing slide, because the error of [add_thank_you_slide] is. *)
Theorem build_without_layouts
    (M : Metadata) (template : Pptx.Presentation) (plan : Plan) (specs : list SlideSpec) :
  Pptx.slide_layouts template = [] →
  plan_slides plan = Some specs →
  (Exists (λ s, has_layout_name s) specs → build_pptx_from_plan M template plan = None)
  ∧ (Forall (λ s, ¬ has_layout_name s) specs →
     build_pptx_from_plan M template plan = Some template).
Proof.
  intros Hnone Hplan. unfold build_pptx_from_plan. rewrite Hplan. simpl.
  destruct (build_slides_no_layouts M template specs Hnone) as [Hex Hall]. split.
  - intros H. by rewrite (Hex H).
  - intros H. rewrite (Hall H). simpl. unfold add_thank_you_slide. by rewrite Hnone.
Qed.

Lemma build_without_layouts_witness :
  (Exists (λ s, has_layout_name s) [unnamed_slide; slide_of "Agenda"] →
   build_pptx_from_plan plain_markers {| Pptx.slide_layouts := []; Pptx.slides := [] |}
     (plan_of [unnamed_slide; slide_of "Agenda"]) = None)
  ∧ (Forall (λ s, ¬ has_layout_name s) [unnamed_slide; slide_of "Agenda"] →
     build_pptx_from_plan plain_markers {| Pptx.slide_layouts := []; Pptx.slides := [] |}
       (plan_of [unnamed_slide; slide_of "Agenda"])
     = Some {| Pptx.slide_layouts := []; Pptx.slides := [] |}).
Proof.
  apply (build_without_layouts plain_markers {| Pptx.slide_layouts := []; Pptx.slides := [] |}
           (plan_of [unnamed_slide; slide_of "Agenda"]) [unnamed_slide; slide_of "Agenda"]);
    reflexivity.
Defined.

(** ** Enforcement followed by the build *)

Lemma enforce_slides_has_must (M : Metadata) (slides : list SlideSpec) (must : string) :
  must ∈ must_have_names M →
  ∃ s, s ∈ enforce_slides M slides ∧ slide_key s = PyStr.normalize must.
Proof.
  intros Hmust. destruct (decide (missing (keep_slides M slides) must)) as [Hmiss|Hpres].
  - exists (synthesize M must). split; [|apply slide_key_synthesize].
    apply elem_of_enforce_slides. right. by exists must.
  - apply dec_stable in Hpres. apply elem_of_present_set in Hpres as (s & Hs & Hkey).
    exists s. split; [|done]. rewrite enforce_slides_app. apply elem_of_app. by left.
Qed.

(** The resolver looks at the normalized name only. *)
Lemma find_layout_normalize (prs : Pptx.Presentation) (a b : option string) :
  PyStr.normalize (PyStr.or_empty a) = PyStr.normalize (PyStr.or_empty b) →
  find_layout prs a = find_layout prs b.
Proof. intros Heq. unfold find_layout. by rewrite Heq. Qed.

Lemma slide_key_named (s : SlideSpec) : slide_key s ≠ "" → has_layout_name s = true.
Proof.
  unfold slide_key, has_layout_name.
  destruct (layout_name s) as [[|c name]|]; simpl; [by intros []|done|by intros []].
Qed.

(** X13: the request path, [enforce_plan_rules] then [build_pptx_from_plan],
    on a template with at least one layout: it returns a deck, and for every
    must-have name of the metadata that is not blank the deck has a slide made
    from the layout that [find_layout] resolves that name to. *)
Theorem enforced_deck_has_must_haves
    (M : Metadata) (template : Pptx.Presentation) (plan : Plan) (slides : list SlideSpec) :
  Pptx.slide_layouts template ≠ [] →
  plan_slides plan = Some slides →
  ∃ plan' deck,
    enforce_plan_rules M plan = Some plan'
    ∧ build_pptx_from_plan M template plan' = Some deck
    ∧ ∀ must, must ∈ must_have_names M → PyStr.normalize must ≠ "" →
        ∃ layout slide,
          find_layout template (Some must) = Some layout
          ∧ slide ∈ Pptx.slides deck
          ∧ Pptx.slide_layout slide = layout.
Proof.
  intros Hne Hplan.
  destruct (build_slides_app M (enforce_slides M slides) template Hne)
    as (added & Hbuild & Hall).
  destruct (last (Pptx.slide_layouts template)) as [closing|] eqn:Hlast.
  2: { by apply last_None in Hlast. }
  eexists _, _. split; [by apply enforce_plan_rules_Some|]. split.
  - unfold build_pptx_from_plan. rewrite plan_slides_insert. simpl.
    rewrite Hbuild. simpl. unfold add_thank_you_slide. simpl.
    rewrite py_index_last, Hlast. reflexivity.
  - intros must Hmust Hblank.
    destruct (enforce_slides_has_must M slides must Hmust) as (s & Hs & Hkey).
    assert (Hin : s ∈ filter (λ s, has_layout_name s) (enforce_slides M slides)).
    { apply list_elem_of_filter. split; [|done].
      rewrite slide_key_named; [done|by rewrite Hkey]. }
    apply list_elem_of_lookup in Hin as [i Hi].
    destruct (Forall2_lookup_l _ _ _ _ _ Hall Hi)
      as (slide & Hslide & name & layout & Hname & Hfind & ->).
    exists layout, (fill_placeholders M (Pptx.new_slide layout) name
                      (default ∅ (placeholders s))).
    split; [|split; [|reflexivity]].
    + rewrite <- Hfind. apply find_layout_normalize.
      unfold slide_key in Hkey. by rewrite Hname in Hkey.
    + simpl. apply elem_of_app. left. apply elem_of_app. right.
      by eapply list_elem_of_lookup_2.
Qed.

Lemma enforced_deck_has_must_haves_witness :
  ∃ plan' deck,
    enforce_plan_rules plain_markers (plan_of [slide_of "Disclaimer"]) = Some plan'
    ∧ build_pptx_from_plan plain_markers sample_template plan' = Some deck
    ∧ ∀ must, must ∈ must_have_names plain_markers → PyStr.normalize must ≠ "" →
        ∃ layout slide,
          find_layout sample_template (Some must) = Some layout
          ∧ slide ∈ Pptx.slides deck
          ∧ Pptx.slide_layout slide = layout.
Proof.
  apply (enforced_deck_has_must_haves plain_markers sample_template
           (plan_of [slide_of "Disclaimer"]) [slide_of "Disclaimer"]).
  - discriminate.
  - reflexivity.
Defined.

(** ** More on the metadata index *)

Lemma index_layouts_last (ls : list LayoutDescriptor) (key : string) (l : LayoutDescriptor) :
  index_layouts ls !! key = Some l →
  ∃ pre post, ls = pre ++ l :: post
    ∧ PyStr.normalize (ld_layout_name l) = key
    ∧ ∀ l', l' ∈ post → PyStr.normalize (ld_layout_name l') ≠ key.
Proof.
  induction ls as [|x ls IH] using rev_ind.
  { unfold index_layouts. simpl. by rewrite lookup_empty. }
  rewrite index_layouts_snoc.
  destruct (decide (PyStr.normalize (ld_layout_name x) = key)) as [Hx|Hx].
  - rewrite <- Hx, lookup_insert_eq. intros [= <-]. exists ls, [].
    split; [done|]. split; [done|]. intros l' Hl'. by apply not_elem_of_nil in Hl'.
  - rewrite lookup_insert_ne by done. intros (pre & post & -> & Hkey & Hpost)%IH.
    exists pre, (post ++ [x]). split; [by rewrite <- app_assoc|]. split; [done|].
    intros l' [Hl'|Hl']%elem_of_app; [by apply Hpost|].
    by apply list_elem_of_singleton in Hl' as ->.
Qed.

Lemma index_layouts_None (ls : list LayoutDescriptor) (key : string) :
  index_layouts ls !! key = None ↔
  ∀ l, l ∈ ls → PyStr.normalize (ld_layout_name l) ≠ key.
Proof.
  split.
  - intros Hnone l Hl Hkey.
    destruct (index_layouts_is_Some ls l Hl) as [l' Hl']. rewrite Hkey in Hl'. congruence.
  - intros Hall. destruct (index_layouts ls !! key) as [l|] eqn:Hl; [|done].
    apply index_layouts_last in Hl as (pre & post & -> & Hkey & _).
    exfalso. apply (Hall l); [|done]. apply elem_of_app. right. apply list_elem_of_here.
Qed.

(** X14: the index that [load_metadata] builds maps a key to the last
    layout of the metadata whose normalized name is that key, and has no entry
    for a key exactly when no layout has that normalized name. *)
Theorem layouts_by_name_last_wins (meta : RawMetadata) (key : string) :
  let ls := default [] (raw_layouts meta) in
  (∀ l, layouts_by_name (load_metadata meta) !! key = Some l ↔
        ∃ pre post, ls = pre ++ l :: post
          ∧ PyStr.normalize (ld_layout_name l) = key
          ∧ ∀ l', l' ∈ post → PyStr.normalize (ld_layout_name l') ≠ key)
  ∧ (layouts_by_name (load_metadata meta) !! key = None ↔
     ∀ l, l ∈ ls → PyStr.normalize (ld_layout_name l) ≠ key).
Proof.
  simpl. split; [|apply index_layouts_None]. intros l. split.
  - apply index_layouts_last.
  - intros (pre & post & -> & <- & Hpost). by apply index_layouts_lookup.
Qed.

(** ** More on enforcement *)

(** X15: the enforced slide list is the plan's own slides without those of
    ignored layouts, in their order and unchanged, followed by one synthesized
    slide for each must-have name whose normalized form is the layout of no
    kept slide, in the declared order of the names. *)
Theorem enforced_slides_order (M : Metadata) (plan : Plan) (slides : list SlideSpec) :
  plan_slides plan = Some slides →
  enforced_slides M plan
  = Some (filter (λ s, ¬ ignored M s) slides
          ++ (synthesize M
                <$> filter (missing (filter (λ s, ¬ ignored M s) slides))
                           (must_have_names M))).
Proof.
  intros Hplan. rewrite (enforced_slides_Some _ _ _ Hplan), enforce_slides_app.
  by rewrite keep_slides_filter.
Qed.

Lemma enforced_slides_order_witness :
  enforced_slides plain_markers (plan_of [slide_of "Disclaimer"; slide_of "Other"])
  = Some (filter (λ s, ¬ ignored plain_markers s) [slide_of "Disclaimer"; slide_of "Other"]
          ++ (synthesize plain_markers
                <$> filter (missing (filter (λ s, ¬ ignored plain_markers s)
                                       [slide_of "Disclaimer"; slide_of "Other"]))
                           (must_have_names plain_markers))).
Proof.
  apply (enforced_slides_order plain_markers
           (plan_of [slide_of "Disclaimer"; slide_of "Other"])
           [slide_of "Disclaimer"; slide_of "Other"]).
  reflexivity.
Defined.

(** X16: a plan that already complies is returned as it is: when no slide
    of the plan uses an ignored layout and every must-have name is, normalized,
    the layout of some slide, enforcement changes nothing. *)
Theorem enforce_compliant_plan (M : Metadata) (plan : Plan) (slides : list SlideSpec) :
  plan !! "slides" = Some (VSlides slides) →
  (∀ s, s ∈ slides → ¬ ignored M s) →
  (∀ must, must ∈ must_have_names M →
     ∃ s, s ∈ slides ∧ slide_key s = PyStr.normalize must) →
  enforce_plan_rules M plan = Some plan.
Proof.
  intros Hslides Hkeep Hpres.
  rewrite (enforce_plan_rules_Some M plan slides)
    by (unfold plan_slides; by rewrite Hslides).
  rewrite enforce_slides_fixed; [by rewrite insert_id|done|].
  intros must Hmust Hmiss. apply Hmiss, elem_of_present_set. by apply Hpres.
Qed.

Lemma enforce_compliant_plan_witness :
  enforce_plan_rules plain_markers (plan_of [slide_of "Other"; slide_of " AGENDA "])
  = Some (plan_of [slide_of "Other"; slide_of " AGENDA "]).
Proof.
  apply (enforce_compliant_plan plain_markers
           (plan_of [slide_of "Other"; slide_of " AGENDA "])
           [slide_of "Other"; slide_of " AGENDA "]).
  - reflexivity.
  - intros s Hs. apply (bool_decide_unpack _).
    apply elem_of_cons in Hs as [->|Hs]; [reflexivity|].
    apply list_elem_of_singleton in Hs as ->. reflexivity.
  - intros must Hmust. apply list_elem_of_singleton in Hmust as ->.
    exists (slide_of " AGENDA "). split; [|reflexivity].
    apply list_elem_of_further, list_elem_of_here.
Defined.



(** ** File name slugs *)

Example safe_slug_ex :
  safe_slug "  Photo-Synthesis:  the 2nd   LAW! " = "photo-synthesis-the-2nd-law"
  ∧ safe_slug "C++ / Rust_lang" = "c-rust_lang"
  ∧ safe_slug "?!" = "presentation"
  ∧ safe_slug "" = "presentation"
  ∧ safe_slug "../../etc/passwd" = "etcpasswd".
Proof. repeat split; reflexivity. Qed.

Lemma slug_char_facts (c : ascii) :
  is_slug_char c = true →
  PyStr.is_space c = false ∧ PyStr.lower_char c = c.
Proof. destruct c as [[] [] [] [] [] [] [] []]; intros H; try discriminate H; by split. Qed.

Lemma dash_is_slug_char : is_slug_char "-" = true.
Proof. reflexivity. Qed.

Lemma drop_unsafe_chars (s : string) :
  all_chars (λ c, is_slug_char c || PyStr.is_space c) (drop_unsafe s) = true.
Proof.
  induction s as [|c s IH]; [done|]. simpl.
  destruct (is_slug_char c || PyStr.is_space c) eqn:Hc; [|done].
  simpl. by rewrite Hc.
Qed.

Lemma dash_runs_chars (in_run : bool) (s : string) :
  all_chars (λ c, is_slug_char c || PyStr.is_space c) s = true →
  all_chars is_slug_char (dash_runs in_run s) = true.
Proof.
  revert in_run. induction s as [|c s IH]; intros in_run; [done|]. simpl.
  intros [Hc Hs]%andb_true_iff. destruct (PyStr.is_space c) eqn:Hsp.
  - destruct in_run; simpl; by apply IH.
  - rewrite orb_false_r in Hc. simpl. rewrite Hc. by apply IH.
Qed.

Lemma safe_slug_cases (s : string) :
  safe_slug s = "presentation"
  ∨ (safe_slug s ≠ ""
     ∧ safe_slug s = dash_runs false (drop_unsafe (PyStr.lower (PyStr.strip s)))).
Proof.
  unfold safe_slug.
  destruct (dash_runs false _) as [|c r] eqn:Hruns; simpl PyStr.truthy; cbv iota.
  - by left.
  - right. by split.
Qed.

Lemma safe_slug_slug_chars (s : string) : all_chars is_slug_char (safe_slug s) = true.
Proof.
  destruct (safe_slug_cases s) as [->|[_ ->]]; [reflexivity|].
  apply dash_runs_chars, drop_unsafe_chars.
Qed.

Lemma safe_slug_nonempty (s : string) : safe_slug s ≠ "".
Proof. destruct (safe_slug_cases s) as [->|[Hne _]]; [discriminate|done]. Qed.

(** X18: a slug is never empty and consists of lower-case letters, digits,
    dashes and underscores only: no white space, no dot, no path separator. *)
Theorem safe_slug_chars (s : string) :
  safe_slug s ≠ "" ∧ all_chars is_slug_char (safe_slug s) = true.
Proof. split; [apply safe_slug_nonempty|apply safe_slug_slug_chars]. Qed.

Lemma lstrip_no_space (s : string) :
  all_chars is_slug_char s = true → PyStr.lstrip s = s.
Proof.
  destruct s as [|c s]; [done|]. simpl. intros [Hc _]%andb_true_iff.
  by destruct (slug_char_facts c Hc) as [-> _].
Qed.

Lemma rstrip_no_space (s : string) :
  all_chars is_slug_char s = true → PyStr.rstrip s = s.
Proof.
  induction s as [|c s IH]; [done|]. intros [Hc Hs]%andb_true_iff.
  destruct (slug_char_facts c Hc) as [Hsp _].
  rewrite rstrip_cons by done. by rewrite IH.
Qed.

Lemma lower_slug_chars (s : string) :
  all_chars is_slug_char s = true → PyStr.lower s = s.
Proof.
  induction s as [|c s IH]; [done|]. intros [Hc Hs]%andb_true_iff.
  destruct (slug_char_facts c Hc) as [_ Hlow].
  unfold PyStr.lower in *. simpl. by rewrite Hlow, IH.
Qed.

Lemma drop_unsafe_slug_chars (s : string) :
  all_chars is_slug_char s = true → drop_unsafe s = s.
Proof.
  induction s as [|c s IH]; [done|]. intros [Hc Hs]%andb_true_iff.
  simpl. by rewrite Hc, IH.
Qed.

Lemma dash_runs_slug_chars (s : string) :
  all_chars is_slug_char s = true → dash_runs false s = s.
Proof.
  induction s as [|c s IH]; [done|]. intros [Hc Hs]%andb_true_iff.
  destruct (slug_char_facts c Hc) as [Hsp _]. simpl. by rewrite Hsp, IH.
Qed.

Lemma safe_slug_fixed (s : string) :
  s ≠ "" → all_chars is_slug_char s = true → safe_slug s = s.
Proof.
  intros Hne Hs. unfold safe_slug, PyStr.strip.
  rewrite lstrip_no_space, rstrip_no_space, lower_slug_chars, drop_unsafe_slug_chars,
    dash_runs_slug_chars by done.
  by destruct s.
Qed.

(** X19: [safe_slug] is idempotent: the slug of a slug is that slug. *)
Theorem safe_slug_idempotent (s : string) : safe_slug (safe_slug s) = safe_slug s.
Proof. apply safe_slug_fixed; [apply safe_slug_nonempty|apply safe_slug_slug_chars]. Qed.

(** ** The saved file's name *)

Lemma all_chars_app (p : ascii → bool) (s1 s2 : string) :
  all_chars p (s1 +:+ s2) = all_chars p s1 && all_chars p s2.
Proof.
  induction s1 as [|c s1 IH]; [done|].
  change (p c && all_chars p (s1 +:+ s2) = p c && all_chars p s1 && all_chars p s2).
  by rewrite IH, andb_assoc.
Qed.

(** X20: the name of the saved file is a run of lower-case letters, digits,
    dashes and underscores followed by the extension [.pptx], whatever the
    topic, provided the time stamp is made of such characters (digits and a
    dash, for the format the program uses): it names no directory. *)
Theorem pptx_file_name_safe (topic stamp : string) :
  all_chars is_slug_char stamp = true →
  ∃ stem, pptx_file_name topic stamp = stem +:+ ".pptx"
          ∧ stem ≠ "" ∧ all_chars is_slug_char stem = true.
Proof.
  intros Hstamp. exists (safe_slug topic +:+ "-" +:+ stamp).
  pose proof (safe_slug_nonempty topic) as Hne.
  pose proof (safe_slug_slug_chars topic) as Hslug. split; [|split].
  - unfold pptx_file_name.
    assert (Hassoc : ∀ a b c : string, a +:+ b +:+ c = (a +:+ b) +:+ c).
    { intros a b c. induction a as [|x a IH]; [done|].
      change (String x (a +:+ b +:+ c) = String x ((a +:+ b) +:+ c)). by rewrite IH. }
    by rewrite !Hassoc.
  - destruct (safe_slug topic); [done|discriminate].
  - by rewrite !all_chars_app, Hslug, Hstamp.
Qed.

Lemma pptx_file_name_safe_witness :
  ∃ stem, pptx_file_name "Photo Synthesis!" "20260104-093015" = stem +:+ ".pptx"
          ∧ stem ≠ "" ∧ all_chars is_slug_char stem = true.
Proof. apply (pptx_file_name_safe "Photo Synthesis!" "20260104-093015"). reflexivity. Defined.

Example pptx_file_name_ex :
  pptx_file_name "Photo Synthesis!" "20260104-093015"
  = "photo-synthesis-20260104-093015.pptx".
Proof. reflexivity. Qed.

(** ** The stub plan *)

Lemma length_append (a b : string) :
  String.length (a +:+ b) = (String.length a + String.length b)%nat.
Proof.
  induction a as [|c a IH]; [done|].
  change (S (String.length (a +:+ b)) = S (String.length a + String.length b)).
  by rewrite IH.
Qed.

Lemma append_assoc (a b c : string) : a +:+ b +:+ c = (a +:+ b) +:+ c.
Proof.
  induction a as [|x a IH]; [done|].
  change (String x (a +:+ b +:+ c) = String x ((a +:+ b) +:+ c)). by rewrite IH.
Qed.

Lemma pad_loop_spec (min_len : Z) (base s : string) :
  min_len ≤ PyStr.len (pad_loop min_len base s)
  ∧ ∃ rest, pad_loop min_len base s = s +:+ rest.
Proof.
  funelim (pad_loop min_len base s).
  - destruct H as [Hlen [rest Hrest]]. split; [done|].
    exists (" " +:+ base +:+ rest). rewrite Hrest. by rewrite <- !append_assoc.
  - split; [lia|]. exists "". clear. induction s as [|c s IH]; [done|].
    change (String c s = String c (s +:+ "")). by rewrite <- IH.
Qed.

Lemma take_append (n : nat) (a b : string) :
  (String.length a ≤ n)%nat →
  PyStr.take n (a +:+ b) = a +:+ PyStr.take (n - String.length a) b.
Proof.
  revert n. induction a as [|c a IH]; intros n Hn.
  - simpl. by rewrite Nat.sub_0_r.
  - destruct n as [|n]; [simpl in Hn; lia|].
    change (String c (PyStr.take n (a +:+ b))
            = String c (a +:+ PyStr.take (n - String.length a) b)).
    rewrite IH; [done|]. simpl in Hn. lia.
Qed.

(** X21: [pad] returns a text of exactly [max(min_len, len(base))]
    characters that starts with [base]; a [min_len] that [base] already reaches
    gives [base] itself. *)
Theorem pad_length (min_len : Z) (base : string) :
  PyStr.len (pad min_len base) = Z.max min_len (PyStr.len base)
  ∧ (∃ rest, pad min_len base = base +:+ rest)
  ∧ (min_len ≤ PyStr.len base → pad min_len base = base).
Proof.
  unfold pad. destruct (pad_loop_spec min_len base base) as [Hlen [rest Hrest]].
  assert (Hbase : (String.length base
                   ≤ Z.to_nat (Z.max min_len (PyStr.len base)))%nat).
  { unfold PyStr.len. lia. }
  pose proof (f_equal String.length Hrest) as Hge. rewrite length_append in Hge.
  split; [|split].
  - unfold PyStr.len in *. rewrite take_length by lia. lia.
  - rewrite Hrest, take_append by done. by eexists.
  - intros Hle. rewrite Hrest, take_append by done.
    replace (Z.to_nat (Z.max min_len (PyStr.len base)) - String.length base)%nat
      with 0%nat by (unfold PyStr.len in *; lia).
    assert (Hnil : PyStr.take 0 rest = "") by by destruct rest.
    rewrite Hnil. clear. induction base as [|c s IH]; [done|].
    change (String c (s +:+ "") = String c s). by rewrite IH.
Qed.

Example pad_ex :
  pad 12 "abc" = "abc abc abc " ∧ pad 2 "abc" = "abc" ∧ pad (-4) "abc" = "abc"
  ∧ pad 5 "" = "     ".
Proof. repeat split; reflexivity. Qed.

(** X22: for every topic the stub plan has three slides, of the layouts
    ["Blank"], ["2_Custom Layout"] and ["14_Custom Layout"] in this order; the
    title of the first is the upper-cased topic, each of the four agenda
    descriptions has at least 160 characters and the summary text at least 520,
    which is what the two loops of [stub_plan] are for. *)
Theorem stub_plan_shape (topic : string) :
  ∃ title agenda summary : gmap string string,
    plan_slides (stub_plan topic)
    = Some [ {| layout_name := Some "Blank"; placeholders := Some title |};
             {| layout_name := Some "2_Custom Layout"; placeholders := Some agenda |};
             {| layout_name := Some "14_Custom Layout"; placeholders := Some summary |} ]
    ∧ title !! "10" = Some (PyStr.upper topic)
    ∧ (∀ k, k ∈ ["14"; "15"; "16"; "17"] →
         ∃ text, agenda !! k = Some text ∧ 160 ≤ PyStr.len text)
    ∧ ∃ text, summary !! "11" = Some text ∧ 520 ≤ PyStr.len text.
Proof.
  eexists _, _, _. split; [reflexivity|]. split; [reflexivity|]. split.
  - intros k Hk. exists agenda_desc. split; [|by vm_compute].
    repeat (apply elem_of_cons in Hk as [->|Hk]; [reflexivity|]).
    by apply not_elem_of_nil in Hk.
  - exists summary_desc. split; [reflexivity|by vm_compute].
Qed.

(** ** The closing slide *)

(** X23: [add_thank_you_slide] fails exactly on a template without layouts
    (there [slide_layouts[len - 1]] is index -1 of an empty list); otherwise it
    appends one slide, made from the last layout and left unfilled, and changes
    nothing else of the deck. *)
Theorem add_thank_you_slide_last (prs : Pptx.Presentation) :
  (add_thank_you_slide prs = None ↔ Pptx.slide_layouts prs = [])
  ∧ ∀ prs', add_thank_you_slide prs = Some prs' →
      ∃ last_layout,
        last (Pptx.slide_layouts prs) = Some last_layout
        ∧ Pptx.slide_layouts prs' = Pptx.slide_layouts prs
        ∧ Pptx.slides prs' = Pptx.slides prs ++ [Pptx.new_slide last_layout].
Proof.
  unfold add_thank_you_slide. rewrite py_index_last.
  destruct (last (Pptx.slide_layouts prs)) as [l|] eqn:Hlast; simpl.
  - split.
    + split; [done|]. intros Hnil. by rewrite Hnil in Hlast.
    + intros prs' [= <-]. by exists l.
  - split; [|done]. split; [|done]. intros _. by apply last_None.
Qed.

(** ** Enforcement, run again *)

Lemma keep_slides_app (M : Metadata) (l1 l2 : list SlideSpec) :
  keep_slides M (l1 ++ l2) = keep_slides M l1 ++ keep_slides M l2.
Proof. rewrite !keep_slides_filter. apply filter_app. Qed.

Lemma keep_slides_idem (M : Metadata) (slides : list SlideSpec) :
  keep_slides M (keep_slides M slides) = keep_slides M slides.
Proof.
  rewrite (keep_slides_filter M (keep_slides M slides)). apply filter_id.
  intros s Hs. by apply elem_of_keep_slides in Hs as [Hno _].
Qed.

Lemma keep_slides_synthesized (M : Metadata) (musts : list string) :
  keep_slides M (synthesize M <$> musts)
  = synthesize M <$> filter (λ must, PyStr.normalize must ∉ ignore_set M) musts.
Proof.
  rewrite keep_slides_filter. induction musts as [|must musts IH]; [done|].
  rewrite fmap_cons. destruct (decide (PyStr.normalize must ∈ ignore_set M)) as [Hin|Hout].
  - rewrite filter_cons_False by (intros H; by apply H).
    rewrite (filter_cons_False _ must) by (intros H; by apply H). exact IH.
  - rewrite filter_cons_True by done.
    rewrite (filter_cons_True _ must) by done. by rewrite fmap_cons, IH.
Qed.

(** What a second run finds missing are the must-have names that the first
    run found missing and whose normalized form is ignored. *)
Lemma missing_again (M : Metadata) (slides : list SlideSpec) (must : string) :
  must ∈ must_have_names M →
  missing (keep_slides M (enforce_slides M slides)) must ↔
  missing (keep_slides M slides) must ∧ PyStr.normalize must ∈ ignore_set M.
Proof.
  intros Hmust. rewrite enforce_slides_app, keep_slides_app, keep_slides_idem,
    keep_slides_synthesized.
  unfold missing. rewrite !elem_of_present_set. split.
  - intros Hmiss. split.
    + intros (s & Hs & Hkey). apply Hmiss. exists s. split; [|done].
      apply elem_of_app. by left.
    + apply dec_stable. intros Hout. apply Hmiss. exists (synthesize M must).
      split; [|apply slide_key_synthesize]. apply elem_of_app. right.
      apply list_elem_of_fmap_2, list_elem_of_filter. split; [done|].
      apply list_elem_of_filter. split; [|done].
      unfold missing. rewrite elem_of_present_set. intros (s & Hs & Hkey).
      apply Hmiss. exists s. split; [|done]. apply elem_of_app. by left.
  - intros [Hmiss Hign] (s & Hs & Hkey). apply elem_of_app in Hs as [Hs|Hs].
    + apply Hmiss. by exists s.
    + apply list_elem_of_fmap in Hs as (must' & -> & Hm').
      apply list_elem_of_filter in Hm' as [Hout _].
      rewrite slide_key_synthesize in Hkey. by rewrite Hkey in Hout.
Qed.

Lemma keep_slides_enforced_twice (M : Metadata) (slides : list SlideSpec) :
  keep_slides M (enforce_slides M (enforce_slides M slides))
  = keep_slides M (enforce_slides M slides).
Proof.
  rewrite (enforce_slides_app M (enforce_slides M slides)), keep_slides_app,
    keep_slides_idem, keep_slides_synthesized.
  rewrite filter_none; [by rewrite app_nil_r|].
  intros must Hm Hout. unfold missing_must_haves in Hm.
  apply list_elem_of_filter in Hm as [Hmiss Hmust].
  apply missing_again in Hmiss as [_ Hign]; done.
Qed.

(** X24: enforcement settles with the second run, for every metadata: a
    third run returns what the second returned. (With a layout marked both
    must-have and ignore the second run may still differ from the first.) *)
Theorem enforce_settles (M : Metadata) (plan : Plan) (slides : list SlideSpec) :
  plan_slides plan = Some slides →
  ∃ plan1 plan2,
    enforce_plan_rules M plan = Some plan1
    ∧ enforce_plan_rules M plan1 = Some plan2
    ∧ enforce_plan_rules M plan2 = Some plan2.
Proof.
  intros Hplan. eexists _, _.
  split; [by apply enforce_plan_rules_Some|].
  split; [apply enforce_plan_rules_Some, plan_slides_insert|].
  rewrite insert_insert_eq.
  rewrite (enforce_plan_rules_Some M _ (enforce_slides M (enforce_slides M slides)))
    by apply plan_slides_insert.
  rewrite insert_insert_eq. do 3 f_equal.
  unfold enforce_slides at 1. rewrite keep_slides_enforced_twice. reflexivity.
Qed.

Lemma enforce_settles_witness :
  ∃ plan1 plan2,
    enforce_plan_rules both_markers ∅ = Some plan1
    ∧ enforce_plan_rules both_markers plan1 = Some plan2
    ∧ enforce_plan_rules both_markers plan2 = Some plan2.
Proof. apply (enforce_settles both_markers ∅ []). reflexivity. Defined.




